(** * node-nest: the Nest polling loop, its endpoint cache and the
    per-device measurements, embedded in Rocq.

    The development follows the two program variants of the repository:
    the full one ([src/unnamed/part_000], 255 lines, with the 404 and 429
    branches and the [device.state.reading] series), to which line numbers
    refer unless said otherwise, and the earlier [src/index.js], kept in
    [Module Legacy].

    JavaScript data is modelled as it reaches the program: JSON values with
    IEEE doubles for numbers, objects as association lists in enumeration
    order, strings as [string].  Effects (the global [dynamicNestConfig],
    the promise that [nest] builds, the calls made on [https], [JSON],
    [influxdb] and [winston]) are threaded through a small state-and-exception
    monad in which a thrown exception keeps the mutations made before it. *)

From Stdlib Require Import String Ascii List Bool Arith Lia.
From Stdlib Require Import Floats Uint63 ZArith DecimalString.
Import ListNotations.
Local Set Warnings "-register-all".
Local Open Scope string_scope.
Local Open Scope list_scope.

(* ===================================================================== *)
(** ** String methods used on the [Location] header *)
(* ===================================================================== *)

(** [s.slice(n)]: the string without its first [n] characters. *)
Fixpoint skip (n : nat) (s : string) : string :=
  match n, s with
  | O, _ => s
  | S n', String _ s' => skip n' s'
  | S _, EmptyString => EmptyString
  end.

(** [s.replace(pattern, replacement)] with a string pattern: only the first
    occurrence is replaced.  (The program's replacement is always the empty
    string, so the [$]-patterns of a replacement never apply.) *)
Fixpoint replace (pattern replacement s : string) : string :=
  if String.prefix pattern s
  then replacement ++ skip (String.length pattern) s
  else match s with
       | EmptyString => EmptyString
       | String c s' => String c (replace pattern replacement s')
       end.

(** [s.split(sep)] for a one-character separator: every occurrence splits,
    and the result always has at least one element. *)
Fixpoint split (sep : ascii) (s : string) : list string :=
  match s with
  | EmptyString => [EmptyString]
  | String c s' =>
      if Ascii.eqb c sep then EmptyString :: split sep s'
      else match split sep s' with
           | [] => [String c EmptyString]
           | piece :: pieces => String c piece :: pieces
           end
  end.

(** Is character [c] part of [s]? *)
Fixpoint occurs (c : ascii) (s : string) : bool :=
  match s with
  | EmptyString => false
  | String d s' => Ascii.eqb d c || occurs c s'
  end.

(** The decimal numeral of a natural number, as [String(i)] prints an index. *)
Definition nat_to_string (n : nat) : string :=
  NilEmpty.string_of_uint (Nat.to_uint n).

(* ===================================================================== *)
(** ** JavaScript values *)
(* ===================================================================== *)

(** What [JSON.parse] can return, plus [undefined] for an absent property. *)
Inductive JsValue : Type :=
| JUndefined
| JNull
| JBool (b : bool)
| JNum (x : float)
| JStr (s : string)
| JArr (items : list JsValue)
| JObj (props : list (string * JsValue)).

(** The parts of the JavaScript runtime whose algorithms stay outside this
    development. *)
Class Runtime : Type := {
  (** [JSON.parse(text)]; [None] when it throws a [SyntaxError]. *)
  JSON_parse : string -> option JsValue;
  (** [Number::toString], used when a number becomes a property key or a
      piece of an array's string. *)
  Number_toString : float -> string;
  (** [StringToNumber], used when [==] compares a number with a string. *)
  String_toNumber : string -> float
}.

Definition number_of_nat (n : nat) : float :=
  PrimFloat.of_uint63 (Uint63.of_Z (Z.of_nat n)).

(** ToBoolean: [undefined], [null], [false], [0], [-0], [NaN] and the empty
    string are falsy; arrays and objects are truthy. *)
Definition truthy (v : JsValue) : bool :=
  match v with
  | JUndefined | JNull => false
  | JBool b => b
  | JNum x => negb (PrimFloat.eqb x 0 || negb (PrimFloat.eqb x x))
  | JStr s => negb (String.eqb s "")
  | JArr _ | JObj _ => true
  end.

(** [null] and [undefined]: the values a property cannot be read from. *)
Definition nullish (v : JsValue) : bool :=
  match v with
  | JUndefined | JNull => true
  | _ => false
  end.

Section WithRuntime.
Context {RT : Runtime}.

(** ToString.  An array prints as its elements joined by commas, [null] and
    [undefined] elements printing as nothing; a plain object prints as
    [[object Object]]. *)
Fixpoint ToString (v : JsValue) : string :=
  match v with
  | JUndefined => "undefined"
  | JNull => "null"
  | JBool true => "true"
  | JBool false => "false"
  | JNum x => Number_toString x
  | JStr s => s
  | JArr items =>
      String.concat ","
        (map (fun e => match e with
                       | JUndefined | JNull => ""
                       | _ => ToString e
                       end) items)
  | JObj _ => "[object Object]"
  end.

(** [v == s] for a string [s] (IsLooselyEqual): strings compare as strings,
    numbers and booleans compare numerically with [StringToNumber(s)], an
    array or object is first turned into its string, [null] and [undefined]
    equal no string. *)
Definition loose_eq_string (v : JsValue) (s : string) : bool :=
  match v with
  | JUndefined | JNull => false
  | JBool b => PrimFloat.eqb (if b then 1 else 0) (String_toNumber s)
  | JNum x => PrimFloat.eqb x (String_toNumber s)
  | JStr t => String.eqb t s
  | JArr _ | JObj _ => String.eqb (ToString v) s
  end.

End WithRuntime.

(** The position an array-index key denotes among [len] elements. *)
Definition index_of_key (key : string) (len : nat) : option nat :=
  find (fun i => String.eqb (nat_to_string i) key) (seq 0 len).

Fixpoint assoc (key : string) (props : list (string * JsValue)) : option JsValue :=
  match props with
  | [] => None
  | (k, v) :: rest => if String.eqb k key then Some v else assoc key rest
  end.

(** [base[key]] on a value that is not [null] or [undefined]: own properties
    of objects, elements and [length] of arrays and strings; anything else is
    [undefined].  Members inherited from the built-in prototypes (methods
    such as [toString]) are outside the model; [own_read] below tells the
    reads by a computed key that cannot meet one. *)
Definition member (base : JsValue) (key : string) : JsValue :=
  match base with
  | JObj props =>
      match assoc key props with
      | Some v => v
      | None => JUndefined
      end
  | JArr items =>
      if String.eqb key "length" then JNum (number_of_nat (length items))
      else match index_of_key key (length items) with
           | Some i => nth i items JUndefined
           | None => JUndefined
           end
  | JStr s =>
      if String.eqb key "length" then JNum (number_of_nat (String.length s))
      else match index_of_key key (String.length s) with
           | Some i =>
               match String.get i s with
               | Some c => JStr (String c EmptyString)
               | None => JUndefined
               end
           | None => JUndefined
           end
  | _ => JUndefined
  end.

(** The own enumerable keys, in the order [Object.keys] lists them. *)
Definition own_keys (v : JsValue) : list string :=
  match v with
  | JObj props => map fst props
  | JArr items => map nat_to_string (seq 0 (length items))
  | JStr s => map nat_to_string (seq 0 (String.length s))
  | _ => []
  end.

(* ===================================================================== *)
(** ** The program's state and what it does to the outside *)
(* ===================================================================== *)

(** [dynamicNestConfig]: each field is [null] ([None]) or a string. *)
Record Config : Type := { host : option string; port : option string }.

(** The port handed to [https.request]: the number [DEFAULT_NEST_PORT] or
    the string cut out of a [Location] header. *)
Inductive PortValue : Type :=
| PortNumber (n : nat)
| PortString (s : string).

Definition DEFAULT_NEST_URL : string := "developer-api.nest.com".
Definition DEFAULT_NEST_PORT : PortValue := PortNumber 443.

(** Exceptions and rejection reasons. *)
Inductive Thrown : Type :=
| TypeError                 (* a property read from null or undefined *)
| SyntaxError               (* JSON.parse on text that is not JSON *)
| RedirectedTooManyTimes    (* new Error('[NestAPI] Redirected too many times') *)
| Reason (message : string) (* reject(e.message) *)
| RangeError                (* https.request given a port Node refuses *).

(** One entry of the array given to [influxdb.writePoints]; [tags] and
    [fields] keep the order of the object literal. *)
Record Point : Type := {
  measurement : string;
  tags : list (string * JsValue);
  fields : list (string * JsValue)
}.

Inductive Level : Type := info | error.

(** The lines handed to winston, by their template. *)
Inductive Message : Type :=
| MsgGet (url : string) (p : PortValue)
| MsgRedirect (h p : option string)
| MsgNotFound
| MsgTooManyRequests
| MsgNoThermostats
| MsgFound (n : nat)
| MsgWriting (name : JsValue)
| MsgUnexpected
| MsgCaught (err : Thrown).

(** Calls that leave the program, in the order they are made. *)
Inductive Event : Type :=
| HttpsGet (url : string) (p : PortValue)  (* https.request(opts, ...); req.end() *)
| JsonParse (text : string)                (* JSON.parse(text) *)
| WritePoints (points : list Point)        (* influxdb.writePoints(points) *)
| Log (level : Level) (msg : Message).     (* winston.info / winston.error *)

Record World : Type := { dynamicNestConfig : Config; trace : list Event }.

(** The state of one call of [nest] while its response is handled: the
    world, and the value its promise was resolved with, if it was. *)
Record Call : Type := { world : World; resolved : option JsValue }.

(** What the network delivers for one request. *)
Record Response : Type := {
  statusCode : nat;
  location : option string;   (* res.headers.location *)
  chunks : list string        (* the 'data' events, then 'end' *)
}.

Inductive NetEvent : Type :=
| NetResponse (res : Response)
| NetError (message : string).  (* the request's 'error' event *)

(** How a call of [nest] ends. *)
Inductive Outcome : Type :=
| Throws (e : Thrown)         (* thrown before a promise was built *)
| Fulfilled (data : JsValue)
| Rejected (reason : Thrown)
| Pending                     (* no response ever arrives *)
| Exited (e : Thrown).        (* uncaught exception in a listener *)

(* ===================================================================== *)
(** ** State with exceptions *)
(* ===================================================================== *)

(** A computation over state [S]: the state after it, and either what was
    thrown or the result.  The state returned with an exception holds every
    mutation made before the throw. *)
Definition M (S A : Type) : Type := S -> S * (Thrown + A).

Definition ret {S A} (a : A) : M S A := fun s => (s, inr a).

Definition bind {S A B} (m : M S A) (k : A -> M S B) : M S B :=
  fun s => match m s with
           | (s', inr a) => k a s'
           | (s', inl e) => (s', inl e)
           end.

Definition throw {S A} (e : Thrown) : M S A := fun s => (s, inl e).

Definition update {S} (f : S -> S) : M S unit := fun s => (f s, inr tt).

Definition read {S A} (f : S -> A) : M S A := fun s => (s, inr (f s)).

Notation "x <- c1 ;; c2" := (bind c1 (fun x => c2))
  (at level 61, c1 at next level, right associativity).
Notation "c1 ;; c2" := (bind c1 (fun _ => c2))
  (at level 61, right associativity).

(** [base[key]]: a [TypeError] on [null] and [undefined]. *)
Definition get {S} (base : JsValue) (key : string) : M S JsValue :=
  if nullish base then throw TypeError else ret (member base key).

(** [Object.keys(v)]. *)
Definition Object_keys {S} (v : JsValue) : M S (list string) :=
  if nullish v then throw TypeError else ret (own_keys v).

(** [for (let i = 0; i < ids.length; i++) body(ids[i])]. *)
Fixpoint for_each {S} (ids : list string) (body : string -> M S unit) : M S unit :=
  match ids with
  | [] => ret tt
  | id :: rest => body id ;; for_each rest body
  end.

Definition emit (e : Event) (w : World) : World :=
  {| dynamicNestConfig := dynamicNestConfig w; trace := trace w ++ [e] |}.

Definition winston (level : Level) (msg : Message) : M World unit :=
  update (emit (Log level msg)).

Definition writePoints (points : list Point) : M World unit :=
  update (emit (WritePoints points)).

(** The same calls made while a response is handled. *)
Definition in_world (f : World -> World) : M Call unit :=
  update (fun c => {| world := f (world c); resolved := resolved c |}).

Definition set_host (h : option string) : M Call unit :=
  in_world (fun w => {| dynamicNestConfig :=
                          {| host := h; port := port (dynamicNestConfig w) |};
                        trace := trace w |}).

Definition set_port (p : option string) : M Call unit :=
  in_world (fun w => {| dynamicNestConfig :=
                          {| host := host (dynamicNestConfig w); port := p |};
                        trace := trace w |}).

(** [resolve(v)]: only the first call settles the promise. *)
Definition resolve (v : JsValue) : M Call unit :=
  update (fun c => {| world := world c;
                      resolved := match resolved c with
                                  | Some first => Some first
                                  | None => Some v
                                  end |}).

(* ===================================================================== *)
(** ** The program *)
(* ===================================================================== *)

Section Program.
Context {RT : Runtime}.

(** [JSON.parse(text)] as the program calls it: the call is observable, a
    [SyntaxError] propagates. *)
Definition parse (text : string) : M Call JsValue :=
  in_world (emit (JsonParse text)) ;;
  match JSON_parse text with
  | Some v => ret v
  | None => throw SyntaxError
  end.

(** Lines 231-240.  The ['data'] listener appends each chunk to
    [responseString]; the ['end'] listener parses a non-empty
    [responseString] and resolves with the result, or with the empty string
    itself. *)
Definition on_end (res : Response) : M Call unit :=
  let responseString := String.concat "" (chunks res) in
  data <- (if (String.length responseString =? 0)%nat
           then ret (JStr responseString)
           else parse responseString) ;;
  resolve data.

(** The 307 branch, lines 205-215: [location] is the header without its
    first ["https://"], cut at every colon; [location[0]] becomes the host,
    and [location[1]] without its first slash the port.  A missing header, or a
    header with no colon left, throws where [.replace] is called on
    [undefined] -- in the second case after the host was assigned. *)
Definition on_redirect (res : Response) : M Call unit :=
  header <- match location res with
            | Some text => ret text
            | None => throw TypeError
            end ;;
  let location := split ":" (replace "https://" "" header) in
  set_host (hd_error location) ;;
  second <- match nth_error location 1 with
            | Some text => ret text
            | None => throw TypeError
            end ;;
  set_port (Some (replace "/" "" second)) ;;
  cfg <- read (fun c => dynamicNestConfig (world c)) ;;
  in_world (emit (Log info (MsgRedirect (host cfg) (port cfg)))) ;;
  resolve JNull.

(** The 404 branch, lines 217-224. *)
Definition on_not_found : M Call unit :=
  set_host None ;;
  set_port None ;;
  in_world (emit (Log info MsgNotFound)) ;;
  resolve JNull.

(** The 429 branch, lines 226-229. *)
Definition on_too_many_requests : M Call unit :=
  in_world (emit (Log info MsgTooManyRequests)) ;;
  resolve JNull.

(** The callback given to [https.request] (lines 202-241), followed by the
    listeners it registers.  No branch returns, so the ['end'] listener runs for every
    status. *)
Definition on_response (res : Response) : M Call unit :=
  (if (statusCode res =? 307)%nat then on_redirect res else ret tt) ;;
  (if (statusCode res =? 404)%nat then on_not_found else ret tt) ;;
  (if (statusCode res =? 429)%nat then on_too_many_requests else ret tt) ;;
  on_end res.

(** Lines 183-185: [url = dynamicNestConfig.host || DEFAULT_NEST_URL] when
    [!url]. *)
Definition request_url (url : option string) (cfg : Config) : string :=
  match url with
  | Some u => if String.eqb u "" then
                match host cfg with
                | Some h => if String.eqb h "" then DEFAULT_NEST_URL else h
                | None => DEFAULT_NEST_URL
                end
              else u
  | None => match host cfg with
            | Some h => if String.eqb h "" then DEFAULT_NEST_URL else h
            | None => DEFAULT_NEST_URL
            end
  end.

(** Lines 187-189: [port = dynamicNestConfig.port || DEFAULT_NEST_PORT]
    when [!port]. *)
Definition request_port (portArg : option PortValue) (cfg : Config) : PortValue :=
  let cached := match port cfg with
                | Some p => if String.eqb p "" then DEFAULT_NEST_PORT else PortString p
                | None => DEFAULT_NEST_PORT
                end in
  match portArg with
  | Some (PortNumber 0) => cached
  | Some (PortString p) => if String.eqb p "" then cached else PortString p
  | Some (PortNumber n) => PortNumber n
  | None => cached
  end.

(** The promise's executor up to [req.end()] (lines 183-201 and 247): the
    target is worked out, logged, and the request is sent.  The port is
    taken to be one [https.request] accepts; [checked_nest] below has the
    refusal of the others. *)
Definition request (url : option string) (portArg : option PortValue) (w : World) : World :=
  let url := request_url url (dynamicNestConfig w) in
  let port := request_port portArg (dynamicNestConfig w) in
  emit (HttpsGet url port) (emit (Log info (MsgGet url port)) w).

(** [redirectCount || 0]. *)
Definition or_zero (redirectCount : option nat) : nat :=
  match redirectCount with
  | Some n => n
  | None => 0
  end.

(** What the [then] callback's [return nest(...)] (line 250) makes of the
    inner call:
    the returned promise is adopted, and an exception thrown while calling
    rejects. *)
Definition adopt (inner : World * Outcome) : World * Outcome :=
  match inner with
  | (w, Throws e) => (w, Rejected e)
  | done => done
  end.

(** [nest(url, port, redirectCount)], lines 175-255, against the responses
    the network will deliver, one per request.  [None] stands for an argument that is [null],
    [undefined] or not given.

    A response's body is taken to arrive with its headers, so that its
    ['end'] listener has run when the promise's [then] callback runs.  An
    exception thrown inside a listener is uncaught, which ends the process:
    [Exited]. *)
Fixpoint nest (net : list NetEvent) (url : option string) (portArg : option PortValue)
    (redirectCount : option nat) (w : World) {struct net} : World * Outcome :=
  let redirectCount := or_zero redirectCount in
  if (10 <? redirectCount)%nat then (w, Throws RedirectedTooManyTimes)
  else
    let w := request url portArg w in
    match net with
    | [] => (w, Pending)
    | NetError message :: _ => (w, Rejected (Reason message))
    | NetResponse res :: later =>
        match on_response res {| world := w; resolved := None |} with
        | (c, inl e) => (world c, Exited e)
        | (c, inr _) =>
            match resolved c with
            | None => (world c, Pending)
            | Some data =>
                if negb (truthy data)
                then adopt (nest later None None (Some (redirectCount + 1)) (world c))
                else (world c, Fulfilled data)
            end
        end
    end.

(** [c ? 1 : 0]. *)
Definition flag (c : bool) : JsValue := JNum (if c then 1 else 0)%float.

(** The three objects of the array literal given to [writePoints] (lines
    117-161), their properties read in the order the literal lists them. *)
Definition temperature_reading (device where_ : JsValue) : M World Point :=
  device_id <- get device "device_id" ;;
  room <- get where_ "name" ;;
  ambient <- get device "ambient_temperature_f" ;;
  target_high <- get device "target_temperature_high_f" ;;
  target_low <- get device "target_temperature_low_f" ;;
  target <- get device "target_temperature_f" ;;
  ret {| measurement := "sensor.temperature.reading";
         tags := [("device_id", device_id); ("room", room)];
         fields := [("ambient", ambient); ("target_high", target_high);
                    ("target_low", target_low); ("target", target)] |}.

Definition humidity_reading (device where_ : JsValue) : M World Point :=
  device_id <- get device "device_id" ;;
  room <- get where_ "name" ;;
  humidity <- get device "humidity" ;;
  ret {| measurement := "sensor.humidity.reading";
         tags := [("device_id", device_id); ("room", room)];
         fields := [("humidity", humidity)] |}.

Definition device_state_reading (device where_ : JsValue) : M World Point :=
  device_id <- get device "device_id" ;;
  room <- get where_ "name" ;;
  has_fan <- get device "has_fan" ;;
  has_leaf <- get device "has_leaf" ;;
  mode <- get device "hvac_mode" ;;
  state <- get device "hvac_state" ;;
  is_online <- get device "is_online" ;;
  mode_off <- get device "hvac_mode" ;;
  mode_heat <- get device "hvac_mode" ;;
  mode_cool <- get device "hvac_mode" ;;
  mode_heat_cool <- get device "hvac_mode" ;;
  mode_eco <- get device "hvac_mode" ;;
  state_off <- get device "hvac_state" ;;
  state_cooling <- get device "hvac_state" ;;
  state_heating <- get device "hvac_state" ;;
  ret {| measurement := "device.state.reading";
         tags := [("device_id", device_id); ("room", room);
                  ("device_type", JStr "nest")];
         fields := [("fan", flag (truthy has_fan));
                    ("leaf", flag (truthy has_leaf));
                    ("mode", mode);
                    ("state", state);
                    ("online", flag (truthy is_online));
                    ("mode_off", flag (loose_eq_string mode_off "off"));
                    ("mode_heat", flag (loose_eq_string mode_heat "heat"));
                    ("mode_cool", flag (loose_eq_string mode_cool "cool"));
                    ("mode_heat_cool", flag (loose_eq_string mode_heat_cool "heat-cool"));
                    ("mode_eco", flag (loose_eq_string mode_eco "eco"));
                    ("state_off", flag (loose_eq_string state_off "off"));
                    ("state_cooling", flag (loose_eq_string state_cooling "cooling"));
                    ("state_heating", flag (loose_eq_string state_heating "heating"))] |}.

Definition points (device where_ : JsValue) : M World (list Point) :=
  temperature <- temperature_reading device where_ ;;
  humidity <- humidity_reading device where_ ;;
  state <- device_state_reading device where_ ;;
  ret [temperature; humidity; state].

(** The body of the [for] loop (lines 110-164) for the device stored under
    [id].  [build] is the array literal of the variant at hand. *)
Definition write_device (build : JsValue -> JsValue -> M World (list Point))
    (data : JsValue) (id : string) : M World unit :=
  devices <- get data "devices" ;;
  thermostats <- get devices "thermostats" ;;
  device <- get thermostats id ;;
  structures <- get data "structures" ;;
  structure_id <- get device "structure_id" ;;
  structure <- get structures (ToString structure_id) ;;
  wheres <- get structure "wheres" ;;
  where_id <- get device "where_id" ;;
  where_ <- get wheres (ToString where_id) ;;
  name <- get device "name" ;;
  winston info (MsgWriting name) ;;
  array <- build device where_ ;;
  writePoints array.

(** The function given to [nest().then(...)], lines 99-169. *)
Definition on_data (build : JsValue -> JsValue -> M World (list Point))
    (data : JsValue) : M World unit :=
  devices <- get data "devices" ;;
  both <- (if truthy devices then get devices "thermostats" else ret devices) ;;
  if truthy both then
    devices <- get data "devices" ;;
    thermostats <- get devices "thermostats" ;;
    deviceIds <- Object_keys thermostats ;;
    if (length deviceIds =? 0)%nat then winston info MsgNoThermostats
    else
      winston info (MsgFound (length deviceIds)) ;;
      for_each deviceIds (write_device build data)
  else winston error MsgUnexpected.

(** What [.then(on_data).catch((err) => winston.error(err))] (lines 99-172)
    makes of the way [nest] ended.  The second component tells whether the process is
    still running. *)
Definition then_catch (build : JsValue -> JsValue -> M World (list Point))
    (ended : Outcome) (w : World) : World * bool :=
  match ended with
  | Fulfilled data =>
      match on_data build data w with
      | (w', inr _) => (w', true)
      | (w', inl err) => (emit (Log error (MsgCaught err)) w', true)
      end
  | Rejected reason => (emit (Log error (MsgCaught reason)) w, true)
  | Pending => (w, true)
  | Throws _ => (w, false)
  | Exited _ => (w, false)
  end.

(** One firing of the interval: [nest().then(...).catch(...)]. *)
Definition tick (net : list NetEvent) (w : World) : World * bool :=
  let (w', ended) := nest net None None None w in
  then_catch points ended w'.

(** *** Reading the model *)

(** The world a process starts in. *)
Definition initial : World :=
  {| dynamicNestConfig := {| host := None; port := None |}; trace := [] |}.

(** A call whose promise is not settled yet. *)
Definition fresh (w : World) : Call := {| world := w; resolved := None |}.

(** What the handling of [res] resolves a fresh promise with, or the
    exception that ends it. *)
Definition answer (res : Response) : Thrown + JsValue :=
  match on_response res (fresh initial) with
  | (c, inr _) =>
      match resolved c with
      | Some data => inr data
      | None => inr JUndefined
      end
  | (_, inl e) => inl e
  end.

(** A response after which [nest] calls itself again: its handling ends
    without an exception and resolves with a falsy value. *)
Definition retry_signal (res : Response) : bool :=
  match answer res with
  | inr data => negb (truthy data)
  | inl _ => false
  end.

(** The device stored under [id], its structure and its location, as the
    loop looks them up. *)
Definition thermostat (data : JsValue) (id : string) : JsValue :=
  member (member (member data "devices") "thermostats") id.

Definition structure_of (data device : JsValue) : JsValue :=
  member (member data "structures") (ToString (member device "structure_id")).

Definition where_of (data device : JsValue) : JsValue :=
  member (member (structure_of data device) "wheres")
         (ToString (member device "where_id")).


End Program.

(** The requests and the sink writes among a trace's events. *)
Definition requests (t : list Event) : list (string * PortValue) :=
  flat_map (fun e => match e with HttpsGet u p => [(u, p)] | _ => [] end) t.

Definition writes (t : list Event) : list (list Point) :=
  flat_map (fun e => match e with WritePoints ps => [ps] | _ => [] end) t.

Definition parses (t : list Event) : list string :=
  flat_map (fun e => match e with JsonParse text => [text] | _ => [] end) t.

(** The one-hot columns of [device.state.reading]. *)
Definition mode_columns : list string :=
  ["mode_off"; "mode_heat"; "mode_cool"; "mode_heat_cool"; "mode_eco"].

Definition state_columns : list string :=
  ["state_off"; "state_cooling"; "state_heating"].

Definition is_one (v : option JsValue) : bool :=
  match v with
  | Some (JNum x) => PrimFloat.eqb x 1
  | _ => false
  end.

Definition is_zero (v : option JsValue) : bool :=
  match v with
  | Some (JNum x) => PrimFloat.eqb x 0
  | _ => false
  end.

(** How many of [columns] hold 1 in the fields of [p]. *)
Definition ones (columns : list string) (p : Point) : nat :=
  length (filter (fun k => is_one (assoc k (fields p))) columns).

(** Every one of [columns] is present in [p] and holds 0 or 1. *)
Definition indicators (columns : list string) (p : Point) : bool :=
  forallb (fun k => is_one (assoc k (fields p)) || is_zero (assoc k (fields p)))
          columns.

(* ===================================================================== *)
(** ** The earlier variant, [src/index.js] *)
(* ===================================================================== *)

Module Legacy.
Section Program.
Context {RT : Runtime}.

(** [src/index.js], lines 104-114: its temperature point has no [target]
    field. *)
Definition temperature_reading (device where_ : JsValue) : M World Point :=
  device_id <- get device "device_id" ;;
  room <- get where_ "name" ;;
  ambient <- get device "ambient_temperature_f" ;;
  target_high <- get device "target_temperature_high_f" ;;
  target_low <- get device "target_temperature_low_f" ;;
  ret {| measurement := "sensor.temperature.reading";
         tags := [("device_id", device_id); ("room", room)];
         fields := [("ambient", ambient); ("target_high", target_high);
                    ("target_low", target_low)] |}.

(** [src/index.js], lines 103-125: two points per device, there is no
    [device.state.reading] yet.  The humidity point and the loop around
    the write are those of the full variant. *)
Definition points (device where_ : JsValue) : M World (list Point) :=
  temperature <- temperature_reading device where_ ;;
  humidity <- humidity_reading device where_ ;;
  ret [temperature; humidity].

(** [src/index.js], lines 165-190: the callback given to [https.request]
    has the 307 branch only; a 404 or a 429 goes straight to the
    listeners. *)
Definition on_response (res : Response) : M Call unit :=
  (if (statusCode res =? 307)%nat then on_redirect res else ret tt) ;;
  on_end res.

(** [src/index.js], lines 138-204.  The port falls back to the literal
    [443], the value of [DEFAULT_NEST_PORT], so the request is sent as in
    the full variant. *)
Fixpoint nest (net : list NetEvent) (url : option string) (portArg : option PortValue)
    (redirectCount : option nat) (w : World) {struct net} : World * Outcome :=
  let redirectCount := or_zero redirectCount in
  if (10 <? redirectCount)%nat then (w, Throws RedirectedTooManyTimes)
  else
    let w := request url portArg w in
    match net with
    | [] => (w, Pending)
    | NetError message :: _ => (w, Rejected (Reason message))
    | NetResponse res :: later =>
        match on_response res {| world := w; resolved := None |} with
        | (c, inl e) => (world c, Exited e)
        | (c, inr _) =>
            match resolved c with
            | None => (world c, Pending)
            | Some data =>
                if negb (truthy data)
                then adopt (nest later None None (Some (redirectCount + 1)) (world c))
                else (world c, Fulfilled data)
            end
        end
    end.

(** [src/index.js], lines 79-136: one firing of its interval. *)
Definition tick (net : list NetEvent) (w : World) : World * bool :=
  let (w', ended) := nest net None None None w in
  then_catch points ended w'.

End Program.
End Legacy.

(* ===================================================================== *)
(** ** The schema given to InfluxDB *)
(* ===================================================================== *)

Inductive FieldType : Type := FLOAT | INTEGER | STRING.

(** One entry of the [schema] array: its [measurement], its typed [fields]
    and its [tags]. *)
Record Series : Type := {
  series : string;
  columns : list (string * FieldType);
  labels : list string
}.

(** Lines 33-78. *)
Definition schema : list Series :=
  [ {| series := "sensor.temperature.reading";
       columns := [("ambient", FLOAT); ("target", FLOAT);
                   ("target_high", FLOAT); ("target_low", FLOAT)];
       labels := ["device_id"; "room"] |};
    {| series := "sensor.humidity.reading";
       columns := [("humidity", INTEGER)];
       labels := ["device_id"; "room"] |};
    {| series := "device.state.reading";
       columns := [("fan", INTEGER); ("leaf", INTEGER); ("mode", STRING);
                   ("state", STRING); ("online", INTEGER);
                   ("mode_off", INTEGER); ("mode_heat", INTEGER);
                   ("mode_cool", INTEGER); ("mode_heat_cool", INTEGER);
                   ("mode_eco", INTEGER); ("state_off", INTEGER);
                   ("state_cooling", INTEGER); ("state_heating", INTEGER)];
       labels := ["device_id"; "device_type"; "room"] |} ].

(** [src/index.js], lines 33-55. *)
Definition legacy_schema : list Series :=
  [ {| series := "sensor.temperature.reading";
       columns := [("ambient", FLOAT); ("target_high", FLOAT);
                   ("target_low", FLOAT)];
       labels := ["device_id"; "room"] |};
    {| series := "sensor.humidity.reading";
       columns := [("humidity", INTEGER)];
       labels := ["device_id"; "room"] |} ].

(** The two lists hold the same names. *)
Definition same_names (a b : list string) : bool :=
  forallb (fun x => existsb (String.eqb x) b) a
  && forallb (fun x => existsb (String.eqb x) a) b.

(** The schema has an entry for the point's measurement, and the point's
    fields and tags are exactly the entry's. *)
Definition declared (entries : list Series) (p : Point) : bool :=
  match find (fun e => String.eqb (series e) (measurement p)) entries with
  | Some e => same_names (map fst (fields p)) (map fst (columns e))
              && same_names (map fst (tags p)) (labels e)
  | None => false
  end.

(* ===================================================================== *)
(** ** Reading the model, continued *)
(* ===================================================================== *)

Section Reading.
Context {RT : Runtime}.

(** The array the loop hands to [writePoints] for the device under [id]. *)
Definition array_for (data : JsValue) (id : string) : list Point :=
  match points (thermostat data id) (where_of data (thermostat data id)) initial with
  | (_, inr array) => array
  | (_, inl _) => []
  end.


(** The body the listeners have put together when ['end'] fires. *)
Definition body (res : Response) : string := String.concat "" (chunks res).

End Reading.

(** A network event after which the cache is as before: anything but a 307
    or a 404 response. *)
Definition leaves_cache (ev : NetEvent) : bool :=
  match ev with
  | NetResponse res =>
      negb (statusCode res =? 307)%nat && negb (statusCode res =? 404)%nat
  | NetError _ => true
  end.

(** A network event the two variants handle alike: anything but a 404 or a
    429 response. *)
Definition common (ev : NetEvent) : bool :=
  match ev with
  | NetResponse res =>
      negb (statusCode res =? 404)%nat && negb (statusCode res =? 429)%nat
  | NetError _ => true
  end.

(** The flag columns of [device.state.reading]. *)
Definition flag_columns : list string := ["fan"; "leaf"; "online"].

(** The hvac modes and states the program has a column for. *)
Definition modes : list string := ["off"; "heat"; "cool"; "heat-cool"; "eco"].
Definition states : list string := ["off"; "cooling"; "heating"].

(** From [w] to [w'] the cache is the same, and no request and no call of
    [JSON.parse] was added. *)
Definition untouched (w w' : World) : Prop :=
  dynamicNestConfig w' = dynamicNestConfig w /\
  requests (trace w') = requests (trace w) /\
  parses (trace w') = parses (trace w).

(* ===================================================================== *)
(** ** The port check of [https.request] *)
(* ===================================================================== *)

(** Whether Node accepts a value as a port.  [https.request] (line 203)
    refuses the others with a [RangeError], thrown where it is called. *)
Class Https : Type := {
  legal_port : PortValue -> bool
}.

Section Checked.

Context {RT : Runtime} {HT : Https}.

(** [nest] with that check.  The target has been logged (line 202) when
    [https.request] throws; the exception leaves the promise's executor, so
    the promise is rejected with it and the [then] callback of line 248 is
    passed over. *)
Fixpoint checked_nest (net : list NetEvent) (url : option string)
    (portArg : option PortValue) (redirectCount : option nat) (w : World)
    {struct net} : World * Outcome :=
  let redirectCount := or_zero redirectCount in
  if (10 <? redirectCount)%nat then (w, Throws RedirectedTooManyTimes)
  else
    let target := request_url url (dynamicNestConfig w) in
    let port := request_port portArg (dynamicNestConfig w) in
    if negb (legal_port port)
    then (emit (Log info (MsgGet target port)) w, Rejected RangeError)
    else
      let w := request url portArg w in
      match net with
      | [] => (w, Pending)
      | NetError message :: _ => (w, Rejected (Reason message))
      | NetResponse res :: later =>
          match on_response res {| world := w; resolved := None |} with
          | (c, inl e) => (world c, Exited e)
          | (c, inr _) =>
              match resolved c with
              | None => (world c, Pending)
              | Some data =>
                  if negb (truthy data)
                  then adopt (checked_nest later None None (Some (redirectCount + 1))
                                           (world c))
                  else (world c, Fulfilled data)
              end
          end
      end.

(** Every port a run of [nest] asks for is one Node accepts. *)
Definition legal_ports (net : list NetEvent) (url : option string)
    (portArg : option PortValue) (redirectCount : option nat) (w : World) : bool :=
  forallb (fun target => legal_port (snd target))
          (requests (trace (fst (nest net url portArg redirectCount w)))).

End Checked.

(* ===================================================================== *)
(** ** Reads by a computed key *)
(* ===================================================================== *)

(** The names of the members every object inherits from
    [Object.prototype]. *)
Definition Object_prototype : list string :=
  ["constructor"; "__defineGetter__"; "__defineSetter__"; "hasOwnProperty";
   "__lookupGetter__"; "__lookupSetter__"; "isPrototypeOf";
   "propertyIsEnumerable"; "toString"; "valueOf"; "__proto__";
   "toLocaleString"].

(** [base[key]] is a read that cannot meet an inherited member: [base] is
    [null] or [undefined], where the read throws, or an object of the
    parsed document that has [key] as its own property or for which [key]
    names nothing in [Object.prototype]. *)
Definition own_read (base : JsValue) (key : string) : bool :=
  match base with
  | JUndefined | JNull => true
  | JObj props =>
      match assoc key props with
      | Some _ => true
      | None => negb (existsb (String.eqb key) Object_prototype)
      end
  | _ => false
  end.

Section Lookups.

Context {RT : Runtime}.


End Lookups.

(* ===================================================================== *)
(** ** Sample data *)
(* ===================================================================== *)

Module Sample.

(** The text of a response body, standing for the document [payload]
    below. *)
Definition thermostat_json : string :=
  "{devices:{thermostats:{t1:...}},structures:{s1:{wheres:{w1:{name:Hall}}}}}".

Definition device (id structure_id where_id : string) : JsValue :=
  JObj [("device_id", JStr id);
        ("name", JStr "Hallway");
        ("structure_id", JStr structure_id);
        ("where_id", JStr where_id);
        ("ambient_temperature_f", JNum 71%float);
        ("target_temperature_f", JNum 70%float);
        ("target_temperature_high_f", JNum 75%float);
        ("target_temperature_low_f", JNum 65%float);
        ("humidity", JNum 40%float);
        ("hvac_mode", JStr "heat");
        ("hvac_state", JStr "heating");
        ("is_online", JBool true);
        ("has_fan", JBool true);
        ("has_leaf", JBool false)].

Definition hall : JsValue := JObj [("name", JStr "Hall")].

Definition structures : JsValue :=
  JObj [("s1", JObj [("wheres", JObj [("w1", hall)])])].

(** One thermostat, in structure [s1], room [w1]. *)
Definition payload : JsValue :=
  JObj [("devices", JObj [("thermostats", JObj [("t1", device "t1" "s1" "w1")])]);
        ("structures", structures)].

(** Two thermostats; the first names a structure the payload does not
    have, the second is as in [payload]. *)
Definition payload_with_stray : JsValue :=
  JObj [("devices",
         JObj [("thermostats",
                JObj [("t0", device "t0" "gone" "w1");
                      ("t1", device "t1" "s1" "w1")])]);
        ("structures", structures)].


(** The text of a response body, standing for [payload_with_stray]. *)
Definition stray_json : string :=
  "{devices:{thermostats:{t0:...,t1:...}},structures:{s1:{wheres:{w1:{name:Hall}}}}}".

(** A runtime for the examples: its [JSON.parse] knows the empty object and
    the two documents above, and rejects everything else. *)
Definition runtime : Runtime :=
  {| JSON_parse := fun text =>
       if String.eqb text "{}" then Some (JObj [])
       else if String.eqb text thermostat_json then Some payload
       else if String.eqb text stray_json then Some payload_with_stray
       else None;
     Number_toString := fun _ => "NaN";
     String_toNumber := fun _ => PrimFloat.nan |}.

Definition response (status : nat) (header : option string) (body : list string) : Response :=
  {| statusCode := status; location := header; chunks := body |}.

Definition ok : Response := response 200 None [thermostat_json].
Definition empty : Response := response 200 None [].
Definition not_found : Response := response 404 None [].
Definition not_found_with_body : Response := response 404 None ["{}"].
Definition too_many_requests : Response := response 429 None ["{}"].
Definition redirect : Response := response 307 (Some "https://alt-host:444/") [].
Definition redirect_with_path : Response :=
  response 307 (Some "https://alt-host:444/some/path") [].
Definition redirect_without_port : Response :=
  response 307 (Some "https://alt-host/") [].
Definition server_error : Response := response 500 None [thermostat_json].
Definition not_found_with_document : Response := response 404 None [thermostat_json].
Definition redirect_without_header : Response := response 307 None [].

(** An empty thermostat mapping, and a document with no devices at all. *)
Definition payload_without_thermostats : JsValue :=
  JObj [("devices", JObj [("thermostats", JObj [])]); ("structures", structures)].

Definition payload_without_devices : JsValue :=
  JObj [("structures", structures)].


(** A redirect, a 404, a 429 and seven empty bodies: ten retry signals. *)
Definition ten_retries : list Response :=
  [redirect; not_found; too_many_requests] ++ repeat empty 7.

(** The world once a redirect to alt-host, port 444, has been cached. *)
Definition redirected : World :=
  {| dynamicNestConfig := {| host := Some "alt-host"; port := Some "444" |};
     trace := [] |}.

(** A redirect whose [Location] has a colon and no port. *)
Definition redirect_with_empty_port : Response :=
  response 307 (Some "https://alt-host:/") [].

(** The port check on decimal numerals: a number up to 65535, or a
    non-empty string of digits that denotes one. *)
Definition digit (c : ascii) : option N :=
  let n := N_of_ascii c in
  if (48 <=? n)%N && (n <=? 57)%N then Some (n - 48)%N else None.

Fixpoint decimal (s : string) (value : N) : option N :=
  match s with
  | EmptyString => Some value
  | String c rest =>
      match digit c with
      | Some d => decimal rest (10 * value + d)%N
      | None => None
      end
  end.

Definition legal (port : PortValue) : bool :=
  match port with
  | PortNumber n => (N.of_nat n <=? 65535)%N
  | PortString EmptyString => false
  | PortString s =>
      match decimal s 0%N with
      | Some n => (n <=? 65535)%N
      | None => false
      end
  end.

Definition https : Https := {| legal_port := legal |}.

End Sample.

(* ===================================================================== *)
(** ** Properties *)
(* ===================================================================== *)

Section Properties.
Context {RT : Runtime}.

(** *** Strings *)

Lemma split_nonempty (sep : ascii) (s : string) : split sep s <> [].
Proof.
  induction s as [|c s IH]; simpl.
  - discriminate.
  - destruct (Ascii.eqb c sep); [discriminate|].
    destruct (split sep s); [contradiction|discriminate].
Qed.

Lemma prefix_app (p s : string) : String.prefix p (p ++ s)%string = true.
Proof.
  induction p as [|c p IH]; simpl.
  - now destruct s.
  - destruct (ascii_dec c c); [exact IH|contradiction].
Qed.

Lemma skip_app (p s : string) : skip (String.length p) (p ++ s)%string = s.
Proof. induction p as [|c p IH]; simpl; [now destruct s|exact IH]. Qed.

(** Removing a pattern the string starts with leaves the rest. *)
Lemma replace_prefix (p s : string) : replace p "" (p ++ s)%string = s.
Proof.
  destruct p as [|c p]; [now destruct s|].
  cbn [replace append]. change (String c (p ++ s)%string) with (String c p ++ s)%string.
  rewrite prefix_app. now rewrite skip_app.
Qed.

(** Cutting at the first separator, when the head has none. *)
Lemma split_head (sep : ascii) (h t : string) :
  occurs sep h = false ->
  split sep (h ++ String sep t)%string = h :: split sep t.
Proof.
  induction h as [|c h IH]; simpl; intros H.
  - now rewrite Ascii.eqb_refl.
  - apply orb_false_iff in H as [Hc Hh].
    rewrite Hc, (IH Hh). reflexivity.
Qed.

Lemma split_none (sep : ascii) (s : string) :
  occurs sep s = false -> split sep s = [s].
Proof.
  induction s as [|c s IH]; simpl; intros H; [reflexivity|].
  apply orb_false_iff in H as [Hc Hs].
  now rewrite Hc, (IH Hs).
Qed.


(** *** The monad *)

Lemma bind_get {S A} (base : JsValue) (key : string) (k : JsValue -> M S A) (s : S) :
  bind (get base key) k s =
  if nullish base then (s, inl TypeError) else k (member base key) s.
Proof. unfold bind, get. now destruct (nullish base). Qed.

Lemma member_nullish (base : JsValue) (key : string) :
  nullish base = true -> member base key = JUndefined.
Proof. now destruct base. Qed.

Lemma writes_app (t u : list Event) : writes (t ++ u) = writes t ++ writes u.
Proof. apply flat_map_app. Qed.

Lemma requests_app (t u : list Event) : requests (t ++ u) = requests t ++ requests u.
Proof. apply flat_map_app. Qed.

Lemma parses_app (t u : list Event) : parses (t ++ u) = parses t ++ parses u.
Proof. apply flat_map_app. Qed.

(** *** The response handler, status by status *)

Lemma status_cases (res : Response) :
  statusCode res = 307 \/ statusCode res = 404 \/ statusCode res = 429 \/
  ((statusCode res =? 307)%nat = false /\ (statusCode res =? 404)%nat = false /\
   (statusCode res =? 429)%nat = false).
Proof.
  destruct (Nat.eqb_spec (statusCode res) 307); [now left|].
  destruct (Nat.eqb_spec (statusCode res) 404); [now right; left|].
  destruct (Nat.eqb_spec (statusCode res) 429); [now right; right; left|].
  now right; right; right.
Qed.

Lemma on_response_307 (res : Response) (c : Call) :
  statusCode res = 307 -> on_response res c = (on_redirect res ;; on_end res) c.
Proof.
  intros H. unfold on_response. rewrite H.
  cbv beta iota delta [Nat.eqb bind ret].
  destruct (on_redirect res c) as [c' [e|[]]]; reflexivity.
Qed.

Lemma on_response_404 (res : Response) (c : Call) :
  statusCode res = 404 -> on_response res c = (on_not_found ;; on_end res) c.
Proof.
  intros H. unfold on_response. rewrite H.
  cbv beta iota delta [Nat.eqb bind ret].
  destruct (on_not_found c) as [c' [e|[]]]; reflexivity.
Qed.

Lemma on_response_429 (res : Response) (c : Call) :
  statusCode res = 429 ->
  on_response res c = (on_too_many_requests ;; on_end res) c.
Proof.
  intros H. unfold on_response. rewrite H.
  cbv beta iota delta [Nat.eqb bind ret].
  destruct (on_too_many_requests c) as [c' [e|[]]]; reflexivity.
Qed.

Lemma on_response_other (res : Response) (c : Call) :
  (statusCode res =? 307)%nat = false -> (statusCode res =? 404)%nat = false ->
  (statusCode res =? 429)%nat = false -> on_response res c = on_end res c.
Proof.
  intros H1 H2 H3. unfold on_response. rewrite H1, H2, H3. reflexivity.
Qed.

(** Unfold the handler's blocks down to the record they build. *)
Ltac run :=
  cbv beta iota zeta delta
    [on_redirect on_not_found on_too_many_requests on_end parse bind ret throw
     update read in_world set_host set_port resolve fresh emit
     world resolved dynamicNestConfig trace host port fst snd].

(** Split on what the handler branches on. *)
Ltac cases :=
  repeat match goal with
         | |- context [match location ?r with _ => _ end] =>
             destruct (location r) eqn:?; run
         | |- context [match nth_error ?l ?n with _ => _ end] =>
             destruct (nth_error l n) eqn:?; run
         | |- context [match JSON_parse ?t with _ => _ end] =>
             destruct (JSON_parse t) eqn:?; run
         | |- context [if ?b then _ else _] => destruct b eqn:?; run
         end.

(** Run the handler on [c], status by status. *)
Ltac by_status res c :=
  destruct c as [[[? ?] ?] ?];
  destruct (status_cases res) as [?S|[?S|[?S|(?S & ?S & ?S)]]];
  [ rewrite ?on_response_307 by assumption
  | rewrite ?on_response_404 by assumption
  | rewrite ?on_response_429 by assumption
  | rewrite ?on_response_other by assumption ];
  run; cases.

(** Whether the handling ends normally, and what it resolves the promise
    with, depend on the response and on the promise alone. *)
Lemma on_response_shape (res : Response) (c1 c2 : Call) :
  resolved c1 = resolved c2 ->
  snd (on_response res c1) = snd (on_response res c2) /\
  resolved (fst (on_response res c1)) = resolved (fst (on_response res c2)).
Proof.
  intros H. destruct c2 as [w2 r2]. simpl in H. subst r2.
  by_status res c1; auto.
Qed.

(** A handling that ends normally has resolved the promise. *)
Lemma on_response_resolves (res : Response) (c c' : Call) :
  on_response res c = (c', inr tt) -> resolved c' <> None.
Proof.
  by_status res c; intros H; inversion H; subst; simpl;
    repeat match goal with
           | |- context [match ?o with Some _ => _ | None => _ end] => destruct o
           end; discriminate.
Qed.

(** The handler makes no request and no write. *)
Lemma on_response_requests (res : Response) (c : Call) :
  requests (trace (world (fst (on_response res c)))) = requests (trace (world c)).
Proof.
  by_status res c; rewrite ?requests_app; simpl; rewrite ?app_nil_r; reflexivity.
Qed.

(** What [answer] says of the start world holds in every world. *)
Lemma answer_inr (res : Response) (data : JsValue) (w : World) :
  answer res = inr data ->
  exists c, on_response res (fresh w) = (c, inr tt) /\ resolved c = Some data.
Proof.
  unfold answer. intros H.
  destruct (on_response res (fresh initial)) as [c0 [e|[]]] eqn:E0; [discriminate|].
  destruct (on_response_shape res (fresh w) (fresh initial) eq_refl) as [Hs Hr].
  rewrite E0 in Hs, Hr. simpl in Hs, Hr.
  destruct (on_response res (fresh w)) as [c r] eqn:E. simpl in Hs, Hr. subst r.
  exists c. split; [reflexivity|]. rewrite Hr.
  destruct (resolved c0) eqn:R; [now inversion H|].
  exfalso. now apply (on_response_resolves res _ _ E0).
Qed.

Lemma answer_inl (res : Response) (e : Thrown) (w : World) :
  answer res = inl e -> exists c, on_response res (fresh w) = (c, inl e).
Proof.
  unfold answer. intros H.
  destruct (on_response res (fresh initial)) as [c0 [e0|[]]] eqn:E0.
  - inversion H; subst e0.
    destruct (on_response_shape res (fresh w) (fresh initial) eq_refl) as [Hs _].
    rewrite E0 in Hs. simpl in Hs.
    destruct (on_response res (fresh w)) as [c r]. simpl in Hs. subst r. now exists c.
  - now destruct (resolved c0).
Qed.

(** *** The loop *)

Lemma nest_eq (net : list NetEvent) (url : option string) (portArg : option PortValue)
    (redirectCount : option nat) (w : World) :
  nest net url portArg redirectCount w =
  if (10 <? or_zero redirectCount)%nat then (w, Throws RedirectedTooManyTimes)
  else match net with
       | [] => (request url portArg w, Pending)
       | NetError message :: _ => (request url portArg w, Rejected (Reason message))
       | NetResponse res :: later =>
           match on_response res (fresh (request url portArg w)) with
           | (c, inl e) => (world c, Exited e)
           | (c, inr _) =>
               match resolved c with
               | None => (world c, Pending)
               | Some data =>
                   if negb (truthy data)
                   then adopt (nest later None None
                                 (Some (or_zero redirectCount + 1)) (world c))
                   else (world c, Fulfilled data)
               end
           end
       end.
Proof. destruct net; reflexivity. Qed.

Lemma below_ceiling (n : nat) : n <= 10 -> (10 <? n)%nat = false.
Proof. intros H. now apply Nat.ltb_ge. Qed.

Lemma above_ceiling (n : nat) : 10 < n -> (10 <? n)%nat = true.
Proof. intros H. now apply Nat.ltb_lt. Qed.

(** A retry signal hands over to the next call, one count higher. *)
Lemma nest_retry (res : Response) (url : option string) (portArg : option PortValue)
    (redirectCount : option nat) (w : World) :
  retry_signal res = true -> or_zero redirectCount <= 10 ->
  exists c,
    on_response res (fresh (request url portArg w)) = (c, inr tt) /\
    forall later,
      nest (NetResponse res :: later) url portArg redirectCount w =
      adopt (nest later None None (Some (or_zero redirectCount + 1)) (world c)).
Proof.
  unfold retry_signal. intros R Hn.
  destruct (answer res) as [e|data] eqn:A; [discriminate|].
  destruct (answer_inr res data (request url portArg w) A) as (c & E & D).
  exists c. split; [exact E|]. intros later.
  rewrite nest_eq, (below_ceiling _ Hn), E, D, R. reflexivity.
Qed.

(** A truthy answer ends the loop. *)
Lemma nest_delivery (res : Response) (data : JsValue) (later : list NetEvent)
    (url : option string) (portArg : option PortValue) (redirectCount : option nat)
    (w : World) :
  answer res = inr data -> truthy data = true -> or_zero redirectCount <= 10 ->
  snd (nest (NetResponse res :: later) url portArg redirectCount w) = Fulfilled data.
Proof.
  intros A T Hn.
  destruct (answer_inr res data (request url portArg w) A) as (c & E & D).
  rewrite nest_eq, (below_ceiling _ Hn), E, D, T. reflexivity.
Qed.

Lemma adopt_fst (r : World * Outcome) : fst (adopt r) = fst r.
Proof. now destruct r as [w []]. Qed.

Lemma adopt_fulfilled (r : World * Outcome) (data : JsValue) :
  snd r = Fulfilled data -> snd (adopt r) = Fulfilled data.
Proof. destruct r as [w []]; simpl; congruence. Qed.

Lemma adopt_rejected (r : World * Outcome) (e : Thrown) :
  snd r = Rejected e -> snd (adopt r) = Rejected e.
Proof. destruct r as [w []]; simpl; congruence. Qed.

Lemma request_requests (url : option string) (portArg : option PortValue) (w : World) :
  requests (trace (request url portArg w)) =
  requests (trace w) ++
    [(request_url url (dynamicNestConfig w), request_port portArg (dynamicNestConfig w))].
Proof. unfold request, emit. simpl. now rewrite !requests_app, app_nil_r. Qed.

Lemma request_config (url : option string) (portArg : option PortValue) (w : World) :
  dynamicNestConfig (request url portArg w) = dynamicNestConfig w.
Proof. reflexivity. Qed.

(** Up to ten retry signals, then data: the data is returned. *)
Lemma nest_fulfils (retries : list Response) :
  forall (n : nat) (w : World) (res : Response) (data : JsValue) (later : list NetEvent),
    forallb retry_signal retries = true ->
    n + length retries <= 10 ->
    answer res = inr data -> truthy data = true ->
    snd (nest (map NetResponse retries ++ NetResponse res :: later)
              None None (Some n) w) = Fulfilled data.
Proof.
  induction retries as [|r retries IH]; intros n w res data later R Hn A T.
  - simpl in Hn. cbn [map app]. apply nest_delivery; simpl; auto; lia.
  - simpl in R, Hn. apply andb_true_iff in R as [Rr Rs].
    destruct (nest_retry r None None (Some n) w Rr) as (c & _ & Step); [simpl; lia|].
    cbn [map app]. rewrite Step. apply adopt_fulfilled. simpl.
    apply IH; auto. lia.
Qed.

(** More retry signals than the ceiling allows: the call that would be the
    twelfth throws, and exactly [11 - n] requests have been made. *)
Lemma nest_gives_up (retries : list Response) :
  forall (n : nat) (w : World) (later : list NetEvent),
    forallb retry_signal retries = true ->
    n <= 10 -> 10 < n + length retries ->
    snd (nest (map NetResponse retries ++ later) None None (Some n) w)
      = Rejected RedirectedTooManyTimes /\
    length (requests (trace (fst (nest (map NetResponse retries ++ later)
                                       None None (Some n) w))))
      = length (requests (trace w)) + (11 - n).
Proof.
  induction retries as [|r retries IH]; intros n w later R Hn Hlen.
  - simpl in Hlen. lia.
  - simpl in R, Hlen. apply andb_true_iff in R as [Rr Rs].
    destruct (nest_retry r None None (Some n) w Rr) as (c & E & Step); [simpl; lia|].
    cbn [map app]. rewrite Step, adopt_fst. simpl or_zero.
    assert (Q : length (requests (trace (world c))) = length (requests (trace w)) + 1).
    { pose proof (on_response_requests r (fresh (request None None w))) as Q.
      rewrite E in Q. unfold fresh in Q. cbn [fst world] in Q.
      rewrite Q, request_requests, length_app. reflexivity. }
    destruct (Nat.eq_dec n 10) as [->|Hne].
    + rewrite nest_eq. simpl. split; [reflexivity|]. rewrite Q. reflexivity.
    + destruct (IH (n + 1) (world c) later Rs) as [O L]; [lia|lia|].
      split; [now apply adopt_rejected|]. rewrite L, Q. lia.
Qed.

Lemma nest_default_count (net : list NetEvent) (url : option string)
    (portArg : option PortValue) (w : World) :
  nest net url portArg None w = nest net url portArg (Some 0) w.
Proof. now rewrite !nest_eq. Qed.

(** The requests a call of [nest] makes come after those made before. *)
Lemma nest_requests_extend (net : list NetEvent) :
  forall (url : option string) (portArg : option PortValue)
         (redirectCount : option nat) (w : World),
  exists more,
    requests (trace (fst (nest net url portArg redirectCount w))) =
    requests (trace w) ++ more.
Proof.
  induction net as [|ev later IH]; intros url portArg redirectCount w;
    rewrite nest_eq; destruct (10 <? or_zero redirectCount)%nat;
    try (exists []; simpl; now rewrite app_nil_r).
  - eexists. simpl. apply request_requests.
  - destruct ev as [res|message]; [|eexists; simpl; apply request_requests].
    pose proof (on_response_requests res (fresh (request url portArg w))) as Q.
    destruct (on_response res (fresh (request url portArg w))) as [c [e|u]].
    + eexists. simpl in *. rewrite Q. apply request_requests.
    + unfold fresh in Q. cbn [fst world] in Q.
      destruct (resolved c) as [data|]; [destruct (negb (truthy data))|].
      * rewrite adopt_fst.
        destruct (IH None None (Some (or_zero redirectCount + 1)) (world c)) as [more E].
        eexists. rewrite E, Q, request_requests, <- app_assoc. reflexivity.
      * eexists. simpl. rewrite Q. apply request_requests.
      * eexists. simpl. rewrite Q. apply request_requests.
Qed.

(** Below the ceiling, the first thing a call does is its request. *)
Lemma nest_first_request (net : list NetEvent) (url : option string)
    (portArg : option PortValue) (redirectCount : option nat) (w : World) :
  or_zero redirectCount <= 10 ->
  exists more,
    requests (trace (fst (nest net url portArg redirectCount w))) =
    requests (trace w) ++
      (request_url url (dynamicNestConfig w),
       request_port portArg (dynamicNestConfig w)) :: more.
Proof.
  intros Hn. rewrite nest_eq, (below_ceiling _ Hn).
  destruct net as [|[res|message] later];
    try (exists []; simpl; apply request_requests).
  pose proof (on_response_requests res (fresh (request url portArg w))) as Q.
  destruct (on_response res (fresh (request url portArg w))) as [c [e|u]].
  - exists []. simpl in *. rewrite Q. apply request_requests.
  - unfold fresh in Q. cbn [fst world] in Q.
    destruct (resolved c) as [data|]; [destruct (negb (truthy data))|].
    + rewrite adopt_fst.
      destruct (nest_requests_extend later None None
                  (Some (or_zero redirectCount + 1)) (world c)) as [more E].
      exists more. rewrite E, Q, request_requests, <- app_assoc. reflexivity.
    + exists []. simpl. rewrite Q. apply request_requests.
    + exists []. simpl. rewrite Q. apply request_requests.
Qed.

(** *** The port check *)

Section PortCheck.

Context {HT : Https}.

Lemma checked_nest_eq (net : list NetEvent) (url : option string)
    (portArg : option PortValue) (redirectCount : option nat) (w : World) :
  checked_nest net url portArg redirectCount w =
  if (10 <? or_zero redirectCount)%nat then (w, Throws RedirectedTooManyTimes)
  else if negb (legal_port (request_port portArg (dynamicNestConfig w)))
  then (emit (Log info (MsgGet (request_url url (dynamicNestConfig w))
                               (request_port portArg (dynamicNestConfig w)))) w,
        Rejected RangeError)
  else
    match net with
    | [] => (request url portArg w, Pending)
    | NetError message :: _ => (request url portArg w, Rejected (Reason message))
    | NetResponse res :: later =>
        match on_response res (fresh (request url portArg w)) with
        | (c, inl e) => (world c, Exited e)
        | (c, inr _) =>
            match resolved c with
            | None => (world c, Pending)
            | Some data =>
                if negb (truthy data)
                then adopt (checked_nest later None None
                                         (Some (or_zero redirectCount + 1)) (world c))
                else (world c, Fulfilled data)
            end
        end
    end.
Proof. destruct net as [|[res|message] later]; reflexivity. Qed.

(** While every port asked for is legal, the check changes nothing. *)
Lemma checked_nest_agrees (net : list NetEvent) :
  forall (url : option string) (portArg : option PortValue)
         (redirectCount : option nat) (w : World),
    legal_ports net url portArg redirectCount w = true ->
    checked_nest net url portArg redirectCount w
      = nest net url portArg redirectCount w.
Proof.
  unfold legal_ports.
  induction net as [|ev later IH]; intros url portArg redirectCount w;
    rewrite checked_nest_eq;
    (destruct (10 <? or_zero redirectCount)%nat eqn:C;
     [intros _; rewrite nest_eq, C; reflexivity|]);
    apply Nat.ltb_ge in C; intros L.
  - destruct (nest_first_request [] url portArg redirectCount w C) as [more Q].
    rewrite Q, forallb_app in L. apply andb_prop in L as [_ L].
    cbn [forallb snd] in L. apply andb_prop in L as [L _]. rewrite L.
    rewrite nest_eq, (below_ceiling _ C). reflexivity.
  - destruct (nest_first_request (ev :: later) url portArg redirectCount w C)
      as [more Q].
    pose proof L as L0.
    rewrite Q, forallb_app in L0. apply andb_prop in L0 as [_ L0].
    cbn [forallb snd] in L0. apply andb_prop in L0 as [L0 _]. rewrite L0.
    cbn [negb]. rewrite nest_eq, (below_ceiling _ C) in L |- *.
    destruct ev as [res|message]; [|reflexivity].
    destruct (on_response res (fresh (request url portArg w))) as [c [e|u]];
      [reflexivity|].
    destruct (resolved c) as [data|]; [|reflexivity].
    destruct (negb (truthy data)); [|reflexivity].
    rewrite adopt_fst in L. rewrite (IH _ _ _ _ L). reflexivity.
Qed.

(** C1, where the program departs from it.  A retry signal may leave in the
    cache a port that [https.request] refuses -- a redirect whose
    [Location] has a path does, see C2.  The attempt that follows then
    sends nothing: the [RangeError] thrown in the promise's executor
    rejects the call, which neither returns the data of a later response
    nor fails with the 'Redirected too many times' error, although fewer
    than ten retries have been made. *)
Theorem retry_to_refused_port_is_rejected :
  forall (res : Response) (later : list NetEvent)
         (url : option string) (portArg : option PortValue)
         (redirectCount : option nat) (w : World),
    or_zero redirectCount < 10 ->
    legal_port (request_port portArg (dynamicNestConfig w)) = true ->
    retry_signal res = true ->
    legal_port (request_port None
                  (dynamicNestConfig
                     (world (fst (on_response res (fresh (request url portArg w)))))))
      = false ->
    snd (checked_nest (NetResponse res :: later) url portArg redirectCount w)
      = Rejected RangeError /\
    requests (trace (fst (checked_nest (NetResponse res :: later)
                                       url portArg redirectCount w)))
      = requests (trace w) ++
        [(request_url url (dynamicNestConfig w),
          request_port portArg (dynamicNestConfig w))].
Proof.
  intros res later url portArg redirectCount w Hn L1 R L2.
  rewrite checked_nest_eq, (below_ceiling (or_zero redirectCount)) by lia.
  rewrite L1. cbn [negb].
  destruct (nest_retry res url portArg redirectCount w R) as (c & E & _); [lia|].
  pose proof (on_response_requests res (fresh (request url portArg w))) as Q.
  pose proof (on_response_resolves res _ c E) as D.
  assert (F : forall data, resolved c = Some data -> truthy data = false).
  { intros data K. unfold retry_signal in R.
    destruct (answer res) as [e|v] eqn:A; [discriminate|].
    destruct (answer_inr res v (request url portArg w) A) as (c1 & E1 & D1).
    rewrite E in E1. inversion E1; subst c1. rewrite K in D1.
    inversion D1; subst v. now apply negb_true_iff in R. }
  rewrite E in L2, Q |- *. cbn [fst] in L2, Q.
  destruct (resolved c) as [data|]; [|now destruct D].
  rewrite (F data eq_refl). cbn [negb].
  rewrite checked_nest_eq. cbn [or_zero].
  rewrite (below_ceiling (or_zero redirectCount + 1)) by lia.
  rewrite L2. cbn [negb adopt fst snd]. split; [reflexivity|].
  unfold emit. cbn [trace]. rewrite requests_app. simpl (requests [_]).
  rewrite app_nil_r, Q. unfold fresh. cbn [world]. apply request_requests.
Qed.

(** X18. The ceiling on retries, with the port check.  While every port the
    run asks for is one [https.request] accepts: up to ten retry signals
    followed by a response that delivers data fulfil with that data; more
    than ten retry signals in a row reject with the 'Redirected too many
    times' error, after exactly eleven requests. *)
Theorem checked_nest_retry_ceiling :
  forall (retries : list Response) (later : list NetEvent) (w : World),
    forallb retry_signal retries = true ->
    (forall (res : Response) (data : JsValue),
        length retries <= 10 ->
        answer res = inr data -> truthy data = true ->
        legal_ports (map NetResponse retries ++ NetResponse res :: later)
                    None None None w = true ->
        snd (checked_nest (map NetResponse retries ++ NetResponse res :: later)
                          None None None w) = Fulfilled data) /\
    (10 < length retries ->
     legal_ports (map NetResponse retries ++ later) None None None w = true ->
     snd (checked_nest (map NetResponse retries ++ later) None None None w)
       = Rejected RedirectedTooManyTimes /\
     length (requests (trace (fst (checked_nest (map NetResponse retries ++ later)
                                                None None None w))))
       = length (requests (trace w)) + 11).
Proof.
  intros retries later w R. split.
  - intros res data Hlen A T L. rewrite (checked_nest_agrees _ _ _ _ _ L).
    rewrite nest_default_count. now apply nest_fulfils.
  - intros Hlen L. rewrite (checked_nest_agrees _ _ _ _ _ L).
    rewrite nest_default_count.
    destruct (nest_gives_up retries 0 w later R) as [O N]; [lia|lia|].
    split; [exact O|]. rewrite N. reflexivity.
Qed.

End PortCheck.

(** What the handler leaves in the cache, status by status. *)
Lemma not_found_config (res : Response) (c : Call) :
  statusCode res = 404 ->
  dynamicNestConfig (world (fst (on_response res c))) = {| host := None; port := None |}.
Proof.
  intros S. rewrite on_response_404 by exact S.
  destruct c as [[[h p] t] r]. run. cases; reflexivity.
Qed.

Lemma unchanged_config (res : Response) (c : Call) :
  statusCode res <> 307 -> statusCode res <> 404 ->
  dynamicNestConfig (world (fst (on_response res c))) = dynamicNestConfig (world c).
Proof.
  intros S1 S2. by_status res c; try contradiction; try reflexivity.
Qed.

(** C3. A 404 response leaves both fields of [dynamicNestConfig] null, and
    when [nest] retries after it (the handling ended normally and the count
    is below the ceiling) the very next request goes to
    developer-api.nest.com, port 443. *)
Theorem not_found_reverts_to_default :
  forall (res : Response),
    statusCode res = 404 ->
    (forall c : Call,
        dynamicNestConfig (world (fst (on_response res c)))
          = {| host := None; port := None |}) /\
    (forall (later : list NetEvent) (url : option string) (portArg : option PortValue)
            (redirectCount : option nat) (w : World),
        retry_signal res = true -> or_zero redirectCount < 10 ->
        exists more,
          requests (trace (fst (nest (NetResponse res :: later)
                                     url portArg redirectCount w))) =
          requests (trace w) ++
            (request_url url (dynamicNestConfig w),
             request_port portArg (dynamicNestConfig w))
            :: (DEFAULT_NEST_URL, DEFAULT_NEST_PORT) :: more).
Proof.
  intros res S. split; [intros c; now apply not_found_config|].
  intros later url portArg redirectCount w R Hn.
  destruct (nest_retry res url portArg redirectCount w R) as (c & E & Step); [lia|].
  rewrite Step, adopt_fst.
  destruct (nest_first_request later None None (Some (or_zero redirectCount + 1))
              (world c)) as [more Q]; [simpl; lia|].
  pose proof (not_found_config res (fresh (request url portArg w)) S) as K.
  pose proof (on_response_requests res (fresh (request url portArg w))) as P.
  rewrite E in K, P. unfold fresh in P. cbn [fst world] in K, P.
  exists more. rewrite Q, K, P, request_requests, <- app_assoc. reflexivity.
Qed.

(** C5. A 429 response leaves both fields of [dynamicNestConfig] as they
    were, and resolves the promise with null, the retry signal. *)
Theorem too_many_requests_keeps_cache :
  forall (res : Response) (c : Call),
    statusCode res = 429 ->
    dynamicNestConfig (world (fst (on_response res c))) = dynamicNestConfig (world c) /\
    (resolved c = None -> resolved (fst (on_response res c)) = Some JNull).
Proof.
  intros res c S. split.
  - apply unchanged_config; rewrite S; discriminate.
  - rewrite on_response_429 by exact S.
    destruct c as [[[h p] t] r]. simpl. intros ->. run. cases; reflexivity.
Qed.

(** C7, where the program departs from it.  The redirect branch assigns
    the host (line 209) before it works out the port (line 210).  For a
    [Location] with no colon after ["https://"] the second step throws:
    the host has been overwritten and the port is what it was, [null] on a
    cache that was empty.  For a [Location] that ends in a colon and a
    slash the branch ends normally with the empty string as the port, which
    line 188 reads as no port: the next request goes to the cached host on
    the default port. *)
Theorem redirect_can_set_the_host_alone :
  forall (res : Response) (w : World),
    statusCode res = 307 ->
    (forall header : string,
        location res = Some header ->
        occurs ":" (replace "https://" "" header) = false ->
        port (dynamicNestConfig w) = None ->
        on_response res (fresh w) =
        ({| world := {| dynamicNestConfig :=
                          {| host := Some (replace "https://" "" header);
                             port := None |};
                        trace := trace w |};
            resolved := None |}, inl TypeError)) /\
    (forall h : string,
        location res = Some ("https://" ++ h ++ ":/")%string ->
        occurs ":" h = false ->
        body res = ""%string ->
        on_response res (fresh w) =
        ({| world := {| dynamicNestConfig := {| host := Some h; port := Some "" |};
                        trace := trace w ++
                                 [Log info (MsgRedirect (Some h) (Some ""))] |};
            resolved := Some JNull |}, inr tt) /\
        request_port None {| host := Some h; port := Some "" |} = DEFAULT_NEST_PORT /\
        request_url None {| host := Some h; port := Some "" |}
          = if String.eqb h "" then DEFAULT_NEST_URL else h).
Proof.
  intros res w S. rewrite on_response_307 by exact S.
  destruct w as [[h0 p0] t]. split.
  - intros header L O P. cbn [dynamicNestConfig port] in P. subst p0.
    run. rewrite L. run. rewrite (split_none ":" _ O). reflexivity.
  - intros h L O B. split; [|split; reflexivity].
    unfold body in B.
    cbv beta iota zeta delta [on_redirect bind fresh]. rewrite L.
    cbv beta iota zeta delta [ret].
    rewrite (replace_prefix "https://" (h ++ ":/")).
    change (h ++ ":/")%string with (h ++ String ":" "/")%string.
    rewrite (split_head ":" h "/" O).
    rewrite (split_none ":" "/") by reflexivity.
    cbn [hd_error nth_error].
    change (replace "/" "" "/") with ""%string.
    run. rewrite B. reflexivity.
Qed.

(** A call never fulfils with a falsy value. *)
Lemma nest_fulfilled_truthy (net : list NetEvent) :
  forall (url : option string) (portArg : option PortValue)
         (redirectCount : option nat) (w : World) (data : JsValue),
    snd (nest net url portArg redirectCount w) = Fulfilled data -> truthy data = true.
Proof.
  induction net as [|ev later IH]; intros url portArg redirectCount w data;
    rewrite nest_eq; destruct (10 <? or_zero redirectCount)%nat;
    try discriminate.
  destruct ev as [res|message]; [|discriminate].
  destruct (on_response res (fresh (request url portArg w))) as [c [e|u]];
    [discriminate|].
  destruct (resolved c) as [v|]; [|discriminate].
  destruct (truthy v) eqn:T; simpl.
  - intros H. now inversion H; subst.
  - destruct (nest later None None (Some (or_zero redirectCount + 1)) (world c))
      as [w' o] eqn:N.
    intros H. apply (IH None None (Some (or_zero redirectCount + 1)) (world c)).
    rewrite N. destruct o; simpl in *; try discriminate; exact H.
Qed.

(** C8. A response whose status is not 307, 404 or 429 and whose body is
    empty resolves the promise with the empty string and changes nothing
    else; [nest] then does what it does on every retry signal: it calls
    itself with no url, no port and the count plus one, so that below the
    ceiling the next request goes to the host and port read from the
    unchanged cache, or the defaults; the empty payload is never what the
    caller gets. *)
Theorem empty_body_is_a_retry_signal :
  forall (res : Response),
    statusCode res <> 307 -> statusCode res <> 404 -> statusCode res <> 429 ->
    String.concat "" (chunks res) = "" ->
    (forall w : World,
        on_response res (fresh w) = ({| world := w; resolved := Some (JStr "") |}, inr tt)) /\
    (forall (later : list NetEvent) (url : option string) (portArg : option PortValue)
            (redirectCount : option nat) (w : World),
        or_zero redirectCount <= 10 ->
        nest (NetResponse res :: later) url portArg redirectCount w =
        adopt (nest later None None (Some (or_zero redirectCount + 1))
                    (request url portArg w))) /\
    (forall (later : list NetEvent) (url : option string) (portArg : option PortValue)
            (redirectCount : option nat) (w : World),
        or_zero redirectCount < 10 ->
        exists more,
          requests (trace (fst (nest (NetResponse res :: later)
                                     url portArg redirectCount w))) =
          requests (trace w) ++
            (request_url url (dynamicNestConfig w),
             request_port portArg (dynamicNestConfig w))
            :: (request_url None (dynamicNestConfig w),
                request_port None (dynamicNestConfig w)) :: more) /\
    (forall (later : list NetEvent) (url : option string) (portArg : option PortValue)
            (redirectCount : option nat) (w : World),
        snd (nest (NetResponse res :: later) url portArg redirectCount w)
          <> Fulfilled (JStr "")).
Proof.
  intros res S1 S2 S3 B.
  assert (H : forall w, on_response res (fresh w)
                        = ({| world := w; resolved := Some (JStr "") |}, inr tt)).
  { intros w. rewrite on_response_other by now apply Nat.eqb_neq.
    unfold on_end. rewrite B. destruct w as [cfg t]. reflexivity. }
  assert (N : forall later url portArg redirectCount w,
             or_zero redirectCount <= 10 ->
             nest (NetResponse res :: later) url portArg redirectCount w =
             adopt (nest later None None (Some (or_zero redirectCount + 1))
                         (request url portArg w))).
  { intros later url portArg redirectCount w Hn.
    rewrite nest_eq, (below_ceiling _ Hn), H. reflexivity. }
  split; [exact H|]. split; [exact N|]. split.
  - intros later url portArg redirectCount w Hn.
    rewrite N, adopt_fst by lia.
    destruct (nest_first_request later None None (Some (or_zero redirectCount + 1))
                (request url portArg w)) as [more Q]; [simpl; lia|].
    exists more. rewrite Q, request_requests, request_config, <- app_assoc.
    reflexivity.
  - intros later url portArg redirectCount w F.
    apply nest_fulfilled_truthy in F. discriminate.
Qed.

(** C10, as the program has it.  A 404 or 429 response resolves the promise
    with null in the response callback, before the body is consumed and
    whatever the body is; what the ['end'] listener resolves with later is
    ignored, so the body is never what the attempt yields, and with a body
    that is empty or that [JSON.parse] accepts the response is a retry
    signal.  The ['end'] listener still runs, and hands a non-empty body to
    [JSON.parse]. *)
Theorem not_found_and_too_many_requests_resolve_null :
  forall (res : Response) (c : Call),
    statusCode res = 404 \/ statusCode res = 429 ->
    resolved c = None ->
    resolved (fst (on_response res c)) = Some JNull /\
    (forall data, answer res = inr data -> data = JNull) /\
    (body res = ""%string \/ JSON_parse (body res) <> None ->
     retry_signal res = true) /\
    (body res <> ""%string ->
     parses (trace (world (fst (on_response res c)))) =
     parses (trace (world c)) ++ [body res]).
Proof.
  intros res c S R. unfold body.
  assert (N : forall c0, resolved c0 = None ->
                         resolved (fst (on_response res c0)) = Some JNull).
  { intros [[[h p] t] r] R0. simpl in R0. subst r.
    destruct S as [S|S];
      [rewrite on_response_404 by exact S | rewrite on_response_429 by exact S];
      run; cases; reflexivity. }
  assert (A : forall data, answer res = inr data -> data = JNull).
  { intros data A. destruct (answer_inr res data initial A) as (c1 & E & D).
    pose proof (N (fresh initial) eq_refl) as K. rewrite E in K. simpl in K.
    congruence. }
  split; [now apply N|]. split; [exact A|]. split.
  - intros B. unfold retry_signal.
    destruct (answer res) as [e|data] eqn:E.
    + exfalso. unfold answer in E. revert E.
      destruct S as [S|S];
        [rewrite on_response_404 by exact S | rewrite on_response_429 by exact S];
        unfold fresh, initial; run;
        (destruct B as [B|B];
         [rewrite B; simpl; discriminate|]);
        cases; try discriminate; now destruct B.
    + rewrite (A data eq_refl). reflexivity.
  - intros B. destruct c as [[[h p] t] r].
    assert (L : (String.length (String.concat "" (chunks res)) =? 0)%nat = false).
    { destruct (String.concat "" (chunks res)); [contradiction|reflexivity]. }
    destruct S as [S|S];
      [rewrite on_response_404 by exact S | rewrite on_response_429 by exact S];
      run; rewrite L; run; cases; rewrite !parses_app; simpl;
      rewrite ?app_nil_r; reflexivity.
Qed.

(** *** The redirect target *)

Lemma occurs_app (c : ascii) (s t : string) :
  occurs c (s ++ t)%string = occurs c s || occurs c t.
Proof.
  induction s as [|d s IH]; simpl; [reflexivity|].
  now rewrite IH, orb_assoc.
Qed.


(** C2, on the spec's own example.  For the header
    [https://alt-host:444/some/path] the redirect branch stores the host
    [alt-host], but the port it stores is the text [444some/path]: only the
    first slash after the colon is removed, the path stays. *)
Theorem redirect_with_path_keeps_the_path :
  forall c : Call,
    dynamicNestConfig (world (fst (on_response Sample.redirect_with_path c)))
      = {| host := Some "alt-host"; port := Some "444some/path" |}.
Proof. intros [[[h p] t] r]. reflexivity. Qed.

(** *** The loop over the devices *)

Lemma bind_assoc {S A B C} (m : M S A) (f : A -> M S B) (g : B -> M S C) (s : S) :
  bind (bind m f) g s = bind m (fun a => bind (f a) g) s.
Proof. unfold bind. destruct (m s) as [s' [e|a]]; reflexivity. Qed.

Lemma bind_thrown {S A B} (m : M S A) (k : A -> M S B) (s s' : S) (e : Thrown) :
  m s = (s', inl e) -> bind m k s = (s', inl e).
Proof. unfold bind. now intros ->. Qed.

Lemma bind_returned {S A B} (m : M S A) (k : A -> M S B) (s s' : S) (a : A) :
  m s = (s', inr a) -> bind m k s = k a s'.
Proof. unfold bind. now intros ->. Qed.


(** The readings of a device that has a location. *)
Lemma temperature_reading_ok (device where_ : JsValue) (w : World) :
  nullish device = false -> nullish where_ = false ->
  temperature_reading device where_ w =
  (w, inr {| measurement := "sensor.temperature.reading";
             tags := [("device_id", member device "device_id");
                      ("room", member where_ "name")];
             fields := [("ambient", member device "ambient_temperature_f");
                        ("target_high", member device "target_temperature_high_f");
                        ("target_low", member device "target_temperature_low_f");
                        ("target", member device "target_temperature_f")] |}).
Proof.
  intros D W. unfold temperature_reading, get. rewrite D, W. reflexivity.
Qed.

Lemma legacy_temperature_reading_ok (device where_ : JsValue) (w : World) :
  nullish device = false -> nullish where_ = false ->
  Legacy.temperature_reading device where_ w =
  (w, inr {| measurement := "sensor.temperature.reading";
             tags := [("device_id", member device "device_id");
                      ("room", member where_ "name")];
             fields := [("ambient", member device "ambient_temperature_f");
                        ("target_high", member device "target_temperature_high_f");
                        ("target_low", member device "target_temperature_low_f")] |}).
Proof.
  intros D W. unfold Legacy.temperature_reading, get. rewrite D, W. reflexivity.
Qed.

Lemma humidity_reading_ok (device where_ : JsValue) (w : World) :
  nullish device = false -> nullish where_ = false ->
  exists p, humidity_reading device where_ w = (w, inr p).
Proof.
  intros D W. unfold humidity_reading, get. rewrite D, W. eexists. reflexivity.
Qed.

Lemma device_state_reading_ok (device where_ : JsValue) (w : World) :
  nullish device = false -> nullish where_ = false ->
  device_state_reading device where_ w =
  (w, inr {| measurement := "device.state.reading";
             tags := [("device_id", member device "device_id");
                      ("room", member where_ "name");
                      ("device_type", JStr "nest")];
             fields :=
               [("fan", flag (truthy (member device "has_fan")));
                ("leaf", flag (truthy (member device "has_leaf")));
                ("mode", member device "hvac_mode");
                ("state", member device "hvac_state");
                ("online", flag (truthy (member device "is_online")));
                ("mode_off", flag (loose_eq_string (member device "hvac_mode") "off"));
                ("mode_heat", flag (loose_eq_string (member device "hvac_mode") "heat"));
                ("mode_cool", flag (loose_eq_string (member device "hvac_mode") "cool"));
                ("mode_heat_cool",
                 flag (loose_eq_string (member device "hvac_mode") "heat-cool"));
                ("mode_eco", flag (loose_eq_string (member device "hvac_mode") "eco"));
                ("state_off", flag (loose_eq_string (member device "hvac_state") "off"));
                ("state_cooling",
                 flag (loose_eq_string (member device "hvac_state") "cooling"));
                ("state_heating",
                 flag (loose_eq_string (member device "hvac_state") "heating"))] |}).
Proof.
  intros D W. unfold device_state_reading, get. rewrite D, W. reflexivity.
Qed.

(** Without a location the first reading already throws, at [where.name]. *)
Lemma points_without_where (device where_ : JsValue) (w : World) :
  nullish where_ = true ->
  points device where_ w = (w, inl TypeError) /\
  Legacy.points device where_ w = (w, inl TypeError).
Proof.
  intros W. unfold points, Legacy.points, temperature_reading,
    Legacy.temperature_reading, bind, get.
  rewrite W. destruct (nullish device); split; reflexivity.
Qed.

Lemma points_ok (device where_ : JsValue) (w : World) :
  nullish device = false -> nullish where_ = false ->
  exists t h s,
    points device where_ w = (w, inr [t; h; s]) /\
    temperature_reading device where_ w = (w, inr t) /\
    device_state_reading device where_ w = (w, inr s).
Proof.
  intros D W. destruct (humidity_reading_ok device where_ w D W) as [h H].
  do 3 eexists. split; [|split].
  - unfold points.
    rewrite (bind_returned _ _ _ _ _ (temperature_reading_ok device where_ w D W)).
    rewrite (bind_returned _ _ _ _ _ H).
    rewrite (bind_returned _ _ _ _ _ (device_state_reading_ok device where_ w D W)).
    reflexivity.
  - now apply temperature_reading_ok.
  - now apply device_state_reading_ok.
Qed.

Lemma legacy_points_ok (device where_ : JsValue) (w : World) :
  nullish device = false -> nullish where_ = false ->
  exists t h,
    Legacy.points device where_ w = (w, inr [t; h]) /\
    Legacy.temperature_reading device where_ w = (w, inr t).
Proof.
  intros D W. destruct (humidity_reading_ok device where_ w D W) as [h H].
  do 2 eexists. split.
  - unfold Legacy.points.
    rewrite (bind_returned _ _ _ _ _ (legacy_temperature_reading_ok device where_ w D W)).
    rewrite (bind_returned _ _ _ _ _ H).
    reflexivity.
  - now apply legacy_temperature_reading_ok.
Qed.

(** The body of the loop: a [TypeError] before anything is logged when one
    of the values a property is read from is missing, and otherwise the
    log line followed by the array literal and the write. *)
Lemma write_device_eq (build : JsValue -> JsValue -> M World (list Point))
    (data : JsValue) (id : string) (w : World) :
  write_device build data id w =
  if nullish data
     || nullish (member data "devices")
     || nullish (member (member data "devices") "thermostats")
     || nullish (thermostat data id)
     || nullish (member data "structures")
     || nullish (structure_of data (thermostat data id))
     || nullish (member (structure_of data (thermostat data id)) "wheres")
  then (w, inl TypeError)
  else (array <- build (thermostat data id) (where_of data (thermostat data id)) ;;
        writePoints array)
         (emit (Log info (MsgWriting (member (thermostat data id) "name"))) w).
Proof.
  unfold write_device, where_of, structure_of, thermostat.
  repeat (rewrite bind_get;
          match goal with
          | |- context [if nullish ?b then _ else _] =>
              destruct (nullish b) eqn:?; [now rewrite ?orb_true_r|]
          end).
  reflexivity.
Qed.


(** Whatever the loop's body throws is a [TypeError]. *)
Lemma write_device_throws (data : JsValue) (id : string) (w w' : World) (e : Thrown) :
  write_device points data id w = (w', inl e) -> e = TypeError.
Proof.
  rewrite write_device_eq.
  match goal with |- context [if ?b then _ else _] => destruct b eqn:B end.
  - now intros [= _ <-].
  - apply orb_false_iff in B as [B _]. apply orb_false_iff in B as [B _].
    apply orb_false_iff in B as [B _]. apply orb_false_iff in B as [_ D].
    destruct (nullish (where_of data (thermostat data id))) eqn:W.
    + destruct (points_without_where (thermostat data id) _
                  (emit (Log info (MsgWriting (member (thermostat data id) "name"))) w) W)
        as [P _].
      rewrite (bind_thrown _ _ _ _ _ P). now intros [= _ <-].
    + destruct (points_ok (thermostat data id) _
                  (emit (Log info (MsgWriting (member (thermostat data id) "name"))) w) D W)
        as (t & h & s & P & _).
      rewrite (bind_returned _ _ _ _ _ P). discriminate.
Qed.

Lemma for_each_throws (data : JsValue) (ids : list string) :
  forall (w w' : World) (e : Thrown),
    for_each ids (write_device points data) w = (w', inl e) -> e = TypeError.
Proof.
  induction ids as [|id ids IH]; intros w w' e; [discriminate|].
  cbn [for_each]. unfold bind.
  destruct (write_device points data id w) as [w1 [e1|u]] eqn:E.
  - intros [= _ <-]. now apply (write_device_throws data id w w1).
  - apply IH.
Qed.

(** C9, as the two variants have it.  For every device the loop's body gets
    through, the full variant writes a [sensor.temperature.reading] point
    whose fields are exactly [ambient], [target_high], [target_low] and
    [target], holding the device's [ambient_temperature_f],
    [target_temperature_high_f], [target_temperature_low_f] and
    [target_temperature_f]; the variant of [src/index.js] writes exactly
    the first three, and no [target]. *)
Theorem temperature_reading_fields :
  forall (data : JsValue) (id : string) (w w' : World),
    (write_device points data id w = (w', inr tt) ->
     exists humidity state,
       writes (trace w') = writes (trace w) ++
         [[ {| measurement := "sensor.temperature.reading";
               tags := [("device_id", member (thermostat data id) "device_id");
                        ("room", member (where_of data (thermostat data id)) "name")];
               fields :=
                 [("ambient", member (thermostat data id) "ambient_temperature_f");
                  ("target_high", member (thermostat data id) "target_temperature_high_f");
                  ("target_low", member (thermostat data id) "target_temperature_low_f");
                  ("target", member (thermostat data id) "target_temperature_f")] |};
            humidity; state ]]) /\
    (write_device Legacy.points data id w = (w', inr tt) ->
     exists humidity,
       writes (trace w') = writes (trace w) ++
         [[ {| measurement := "sensor.temperature.reading";
               tags := [("device_id", member (thermostat data id) "device_id");
                        ("room", member (where_of data (thermostat data id)) "name")];
               fields :=
                 [("ambient", member (thermostat data id) "ambient_temperature_f");
                  ("target_high", member (thermostat data id) "target_temperature_high_f");
                  ("target_low", member (thermostat data id) "target_temperature_low_f")] |};
            humidity ]]).
Proof.
  intros data id w w'. split; rewrite write_device_eq;
    (match goal with |- context [if ?b then _ else _] => destruct b eqn:B end;
     [discriminate|]);
    apply orb_false_iff in B as [B _]; apply orb_false_iff in B as [B _];
    apply orb_false_iff in B as [B _]; apply orb_false_iff in B as [_ D];
    destruct (nullish (where_of data (thermostat data id))) eqn:W.
  - destruct (points_without_where (thermostat data id) _
                (emit (Log info (MsgWriting (member (thermostat data id) "name"))) w) W)
      as [P _].
    rewrite (bind_thrown _ _ _ _ _ P). discriminate.
  - destruct (points_ok (thermostat data id) _
                (emit (Log info (MsgWriting (member (thermostat data id) "name"))) w) D W)
      as (t & h & s & P & T & _).
    rewrite temperature_reading_ok in T by assumption. injection T as <-.
    rewrite (bind_returned _ _ _ _ _ P). intros [= <-].
    exists h, s. unfold emit. simpl. rewrite !writes_app. simpl.
    now rewrite app_nil_r.
  - destruct (points_without_where (thermostat data id) _
                (emit (Log info (MsgWriting (member (thermostat data id) "name"))) w) W)
      as [_ P].
    rewrite (bind_thrown _ _ _ _ _ P). discriminate.
  - destruct (legacy_points_ok (thermostat data id) _
                (emit (Log info (MsgWriting (member (thermostat data id) "name"))) w) D W)
      as (t & h & P & T).
    rewrite legacy_temperature_reading_ok in T by assumption. injection T as <-.
    rewrite (bind_returned _ _ _ _ _ P). intros [= <-].
    exists h. unfold emit. simpl. rewrite !writes_app. simpl.
    now rewrite app_nil_r.
Qed.

Lemma member_found (base : JsValue) (key : string) :
  nullish (member base key) = false -> nullish base = false.
Proof. now destruct base. Qed.

(** C6. A device whose [hvac_mode] is ["heat"], whose [hvac_state] is
    ["heating"], and whose [has_fan] and [is_online] are true gets a
    [device.state.reading] point with [mode_heat], [state_heating], [fan]
    and [online] at 1 and every other mode and state column at 0.  For any
    of the five modes and three states, exactly one mode column and exactly
    one state column hold 1, the others 0. *)
Theorem device_state_one_hot :
  forall (device where_ : JsValue) (w : World),
    nullish where_ = false ->
    (member device "hvac_mode" = JStr "heat" ->
     member device "hvac_state" = JStr "heating" ->
     member device "has_fan" = JBool true ->
     member device "is_online" = JBool true ->
     exists temperature humidity p,
       points device where_ w = (w, inr [temperature; humidity; p]) /\
       measurement p = "device.state.reading" /\
       assoc "mode_heat" (fields p) = Some (JNum 1) /\
       assoc "mode_off" (fields p) = Some (JNum 0) /\
       assoc "mode_cool" (fields p) = Some (JNum 0) /\
       assoc "mode_heat_cool" (fields p) = Some (JNum 0) /\
       assoc "mode_eco" (fields p) = Some (JNum 0) /\
       assoc "state_heating" (fields p) = Some (JNum 1) /\
       assoc "state_off" (fields p) = Some (JNum 0) /\
       assoc "state_cooling" (fields p) = Some (JNum 0) /\
       assoc "fan" (fields p) = Some (JNum 1) /\
       assoc "online" (fields p) = Some (JNum 1)) /\
    (forall mode state : string,
        In mode ["off"; "heat"; "cool"; "heat-cool"; "eco"] ->
        In state ["off"; "heating"; "cooling"] ->
        member device "hvac_mode" = JStr mode ->
        member device "hvac_state" = JStr state ->
        exists temperature humidity p,
          points device where_ w = (w, inr [temperature; humidity; p]) /\
          measurement p = "device.state.reading" /\
          ones mode_columns p = 1 /\
          ones state_columns p = 1 /\
          indicators (mode_columns ++ state_columns) p = true).
Proof.
  intros device where_ w W. split.
  - intros Hm Hs Hf Ho.
    assert (D : nullish device = false)
      by (apply (member_found device "hvac_mode"); now rewrite Hm).
    destruct (points_ok device where_ w D W) as (t & h & s & P & _ & S).
    rewrite device_state_reading_ok in S by assumption. injection S as <-.
    exists t, h. eexists. split; [exact P|].
    cbn [fields measurement]. rewrite Hm, Hs, Hf, Ho.
    repeat split; reflexivity.
  - intros mode state Im Is Hm Hs.
    assert (D : nullish device = false)
      by (apply (member_found device "hvac_mode"); now rewrite Hm).
    destruct (points_ok device where_ w D W) as (t & h & s & P & _ & S).
    rewrite device_state_reading_ok in S by assumption. injection S as <-.
    exists t, h. eexists. split; [exact P|].
    unfold ones, indicators. cbn [fields measurement]. rewrite Hm, Hs.
    simpl in Im, Is.
    destruct Im as [<-|[<-|[<-|[<-|[<-|[]]]]]];
      destruct Is as [<-|[<-|[<-|[]]]]; repeat split; reflexivity.
Qed.

(** The kinds of retry signal: any status but 307 with an empty body, and a
    307 whose [Location] still has a colon after ["https://"] is removed. *)
Lemma empty_body_retry_signal (res : Response) :
  String.concat "" (chunks res) = "" -> statusCode res <> 307 ->
  retry_signal res = true.
Proof.
  intros B S. unfold retry_signal, answer.
  destruct (status_cases res) as [S1|[S1|[S1|(S1 & S2 & S3)]]];
    [ contradiction
    | rewrite on_response_404 by exact S1
    | rewrite on_response_429 by exact S1
    | rewrite on_response_other by assumption ];
    run; unfold initial; rewrite B; reflexivity.
Qed.

Lemma redirect_retry_signal (res : Response) (header second : string) :
  String.concat "" (chunks res) = "" -> statusCode res = 307 ->
  location res = Some header ->
  nth_error (split ":" (replace "https://" "" header)) 1 = Some second ->
  retry_signal res = true.
Proof.
  intros B S L N. unfold retry_signal, answer.
  rewrite on_response_307 by exact S.
  run. unfold initial. rewrite L. run. rewrite N. run. rewrite B. reflexivity.
Qed.


(* ===================================================================== *)
(** ** Further properties of the loop *)
(* ===================================================================== *)

(** X1. Whatever the network delivers, a call of [nest] entered with count
    [n] sends at most [11 - n] requests: at most eleven from [nest()], and
    none once the count is above ten. *)
Theorem nest_sends_at_most_eleven (net : list NetEvent) :
  forall (url : option string) (portArg : option PortValue)
         (redirectCount : option nat) (w : World),
    length (requests (trace (fst (nest net url portArg redirectCount w))))
      <= length (requests (trace w)) + (11 - or_zero redirectCount).
Proof.
  induction net as [|ev later IH]; intros url portArg redirectCount w;
    rewrite nest_eq; destruct (Nat.ltb_spec 10 (or_zero redirectCount)) as [Hn|Hn];
    try (cbn [fst]; lia).
  - cbn [fst]. rewrite request_requests, length_app. cbn [length]. lia.
  - destruct ev as [res|message];
      [|cbn [fst]; rewrite request_requests, length_app; cbn [length]; lia].
    pose proof (on_response_requests res (fresh (request url portArg w))) as Q.
    unfold fresh in Q. cbn [world] in Q.
    assert (L : length (requests (trace (world
                  (fst (on_response res (fresh (request url portArg w)))))))
                = length (requests (trace w)) + 1).
    { unfold fresh. rewrite Q, request_requests, length_app. reflexivity. }
    destruct (on_response res (fresh (request url portArg w))) as [c [e|u]];
      cbn [fst] in L; [cbn [fst]; lia|].
    destruct (resolved c) as [data|]; [|cbn [fst]; lia].
    destruct (negb (truthy data)); [|cbn [fst]; lia].
    rewrite adopt_fst.
    specialize (IH None None (Some (or_zero redirectCount + 1)) (world c)).
    simpl or_zero in IH. lia.
Qed.

(** X2. A transport error is not retried: when the request that follows up
    to ten retry signals fails, the promise is rejected with the error's
    message, and that request was the last one sent. *)
Theorem transport_error_is_not_retried :
  forall (retries : list Response) (message : string) (later : list NetEvent)
         (w : World),
    forallb retry_signal retries = true ->
    length retries <= 10 ->
    snd (nest (map NetResponse retries ++ NetError message :: later)
              None None None w) = Rejected (Reason message) /\
    length (requests (trace (fst (nest (map NetResponse retries
                                          ++ NetError message :: later)
                                       None None None w))))
      = length (requests (trace w)) + length retries + 1.
Proof.
  intros retries message later w R Hlen. rewrite nest_default_count.
  assert (G : forall n w0, n + length retries <= 10 ->
            snd (nest (map NetResponse retries ++ NetError message :: later)
                      None None (Some n) w0) = Rejected (Reason message) /\
            length (requests (trace (fst (nest (map NetResponse retries
                                                  ++ NetError message :: later)
                                               None None (Some n) w0))))
              = length (requests (trace w0)) + length retries + 1).
  { clear w Hlen. induction retries as [|r retries IH]; intros n w Hn.
    - cbn [map app]. rewrite nest_eq, below_ceiling by (simpl in *; lia).
      cbn [fst snd]. rewrite request_requests, length_app. cbn [length].
      split; [reflexivity|lia].
    - simpl in R, Hn. apply andb_true_iff in R as [Rr Rs].
      destruct (nest_retry r None None (Some n) w Rr) as (c & E & Step);
        [simpl; lia|].
      cbn [map app]. rewrite Step, adopt_fst. simpl or_zero.
      pose proof (on_response_requests r (fresh (request None None w))) as Q.
      rewrite E in Q. unfold fresh in Q. cbn [fst world] in Q.
      destruct (IH Rs (n + 1) (world c)) as [O L]; [lia|].
      split; [now apply adopt_rejected|].
      rewrite L, Q, request_requests, length_app. cbn [length]. lia. }
  apply G. lia.
Qed.

(** X3. Only a 307 and a 404 touch the cache: a call of [nest] that meets
    neither leaves [dynamicNestConfig] as it found it, however it ends. *)
Theorem other_statuses_leave_cache (net : list NetEvent) :
  forall (url : option string) (portArg : option PortValue)
         (redirectCount : option nat) (w : World),
    forallb leaves_cache net = true ->
    dynamicNestConfig (fst (nest net url portArg redirectCount w))
      = dynamicNestConfig w.
Proof.
  induction net as [|ev later IH]; intros url portArg redirectCount w L;
    rewrite nest_eq; destruct (10 <? or_zero redirectCount)%nat;
    try reflexivity.
  simpl in L. apply andb_true_iff in L as [Le Ll].
  destruct ev as [res|message]; [|reflexivity].
  simpl in Le. apply andb_true_iff in Le as [S1 S2].
  apply negb_true_iff, Nat.eqb_neq in S1. apply negb_true_iff, Nat.eqb_neq in S2.
  pose proof (unchanged_config res (fresh (request url portArg w)) S1 S2) as K.
  destruct (on_response res (fresh (request url portArg w))) as [c [e|u]];
    cbn [fst] in K; [exact K|].
  destruct (resolved c) as [data|]; [|exact K].
  destruct (negb (truthy data)); [|exact K].
  rewrite adopt_fst, IH by exact Ll. exact K.
Qed.

Lemma body_not_empty (res : Response) :
  (String.length (body res) =? 0)%nat = false <-> body res <> "".
Proof.
  destruct (body res); simpl; split; intros H; try discriminate;
    try reflexivity; now destruct H.
Qed.

(** What a handling that resolves with a truthy value has gone through:
    none of the three status branches, and [JSON.parse] of the body. *)
Lemma resolved_data (res : Response) (c c' : Call) (data : JsValue) :
  resolved c = None ->
  on_response res c = (c', inr tt) ->
  resolved c' = Some data -> truthy data = true ->
  statusCode res <> 307 /\ statusCode res <> 404 /\ statusCode res <> 429 /\
  body res <> "" /\ JSON_parse (body res) = Some data.
Proof.
  unfold body. intros R.
  destruct c as [[[h p] t] r]. simpl in R. subst r.
  destruct (status_cases res) as [S|[S|[S|(S1 & S2 & S3)]]];
    [ rewrite on_response_307 by exact S
    | rewrite on_response_404 by exact S
    | rewrite on_response_429 by exact S
    | rewrite on_response_other by assumption ];
    run; cases; intros H; inversion H; subst; simpl; intros D T;
    inversion D; subst; try discriminate;
    try solve [destruct (String.concat "" (chunks res)); simpl in *; discriminate].
  apply Nat.eqb_neq in S1, S2, S3. repeat split; auto.
  apply (proj1 (body_not_empty res)). unfold body. assumption.
Qed.

(** X4. Data comes from [JSON.parse] only: when [nest] fulfils, one of the
    responses it was given had a status other than 307, 404 and 429 and a
    non-empty body, and the data is what [JSON.parse] made of that body. *)
Theorem fulfilled_data_was_parsed (net : list NetEvent) :
  forall (url : option string) (portArg : option PortValue)
         (redirectCount : option nat) (w : World) (data : JsValue),
    snd (nest net url portArg redirectCount w) = Fulfilled data ->
    exists res,
      In (NetResponse res) net /\
      statusCode res <> 307 /\ statusCode res <> 404 /\ statusCode res <> 429 /\
      body res <> "" /\ JSON_parse (body res) = Some data /\ truthy data = true.
Proof.
  induction net as [|ev later IH]; intros url portArg redirectCount w data;
    rewrite nest_eq; destruct (10 <? or_zero redirectCount)%nat;
    try discriminate.
  destruct ev as [res|message]; [|discriminate].
  destruct (on_response res (fresh (request url portArg w))) as [c [e|[]]] eqn:E;
    [discriminate|].
  destruct (resolved c) as [v|] eqn:D; [|discriminate].
  destruct (truthy v) eqn:T; simpl.
  - intros [= <-]. exists res. split; [now left|].
    destruct (resolved_data res (fresh (request url portArg w)) c v eq_refl E D T)
      as (A & B & C & F & G).
    repeat split; assumption.
  - destruct (nest later None None (Some (or_zero redirectCount + 1)) (world c))
      as [w' o] eqn:N.
    intros F.
    destruct (IH None None (Some (or_zero redirectCount + 1)) (world c) data)
      as (res' & I & P); [rewrite N; destruct o; simpl in *; congruence|].
    exists res'. split; [now right|exact P].
Qed.

(** X5. No status but 307, 404 and 429 is looked at: a response with any
    other status, a 500 as much as a 200, whose body parses to a truthy
    value fulfils the promise with that value. *)
Theorem any_other_status_delivers :
  forall (res : Response) (data : JsValue) (later : list NetEvent)
         (url : option string) (portArg : option PortValue)
         (redirectCount : option nat) (w : World),
    or_zero redirectCount <= 10 ->
    statusCode res <> 307 -> statusCode res <> 404 -> statusCode res <> 429 ->
    body res <> "" -> JSON_parse (body res) = Some data -> truthy data = true ->
    nest (NetResponse res :: later) url portArg redirectCount w =
    (emit (JsonParse (body res)) (request url portArg w), Fulfilled data).
Proof.
  intros res data later url portArg redirectCount w Hn S1 S2 S3 B P T.
  rewrite nest_eq, (below_ceiling _ Hn).
  rewrite on_response_other by now apply Nat.eqb_neq.
  apply body_not_empty in B. unfold body in B, P.
  unfold fresh. run. rewrite B. run. rewrite P. run. rewrite T. reflexivity.
Qed.


(** X7. A 307 without a usable [Location] ends the process with a
    [TypeError]: with no header at all nothing has been touched; with a
    header that has no colon once ["https://"] is removed, the host has
    already been overwritten with what is left of the header, and the port
    keeps its old value. *)
Theorem unusable_redirect_exits :
  forall (res : Response) (c : Call),
    statusCode res = 307 ->
    (location res = None -> on_response res c = (c, inl TypeError)) /\
    (forall header : string,
        location res = Some header ->
        occurs ":" (replace "https://" "" header) = false ->
        on_response res c =
        ({| world := {| dynamicNestConfig :=
                          {| host := Some (replace "https://" "" header);
                             port := port (dynamicNestConfig (world c)) |};
                        trace := trace (world c) |};
            resolved := resolved c |}, inl TypeError)).
Proof.
  intros res c S. rewrite on_response_307 by exact S.
  destruct c as [[[h p] t] r]. split.
  - intros L. run. rewrite L. reflexivity.
  - intros header L O. run. rewrite L. run.
    rewrite (split_none ":" _ O). reflexivity.
Qed.

(** Removing the first slash, when nothing before it has one. *)
Lemma replace_first_slash (p rest : string) :
  occurs "/" p = false -> replace "/" "" (p ++ String "/" rest)%string = (p ++ rest)%string.
Proof.
  induction p as [|c p IH]; intros H.
  - cbn [append replace String.prefix String.length skip].
    destruct (ascii_dec "/" "/") as [_|N]; [now destruct rest|now destruct N].
  - simpl in H. apply orb_false_iff in H as [Hc Hp].
    cbn [append replace String.prefix].
    destruct (ascii_dec "/" c) as [E|_].
    + subst c. discriminate.
    + now rewrite (IH Hp).
Qed.

(** X8. What a redirect stores.  For a [Location] of the form
    [https://<host>:<port>/<rest>], with no further colon, the host stored
    is [<host>] and the port stored is [<port>] followed by [<rest>]: the
    port alone exactly when nothing follows the slash. *)
Theorem redirect_target_is_cached :
  forall (res : Response) (h p rest : string) (c : Call),
    statusCode res = 307 ->
    location res = Some ("https://" ++ h ++ ":" ++ p ++ "/" ++ rest)%string ->
    occurs ":" h = false -> occurs ":" p = false -> occurs ":" rest = false ->
    occurs "/" p = false ->
    dynamicNestConfig (world (fst (on_response res c)))
      = {| host := Some h; port := Some (p ++ rest)%string |}.
Proof.
  intros res h p rest c S L Hh Hp Hr Hs. rewrite on_response_307 by exact S.
  destruct c as [[[h0 p0] t] r].
  cbv beta iota zeta delta [on_redirect bind]. rewrite L.
  cbv beta iota zeta delta [ret].
  rewrite (replace_prefix "https://" (h ++ ":" ++ p ++ "/" ++ rest)).
  change (h ++ ":" ++ p ++ "/" ++ rest)%string
    with (h ++ String ":" (p ++ String "/" rest))%string.
  rewrite (split_head ":" h (p ++ String "/" rest) Hh).
  rewrite (split_none ":" (p ++ String "/" rest))
    by (rewrite occurs_app, Hp; simpl; exact Hr).
  cbn [hd_error nth_error]. rewrite (replace_first_slash p rest Hs).
  run. cases; reflexivity.
Qed.



(** *** The earlier variant's loop *)

Lemma legacy_nest_eq (net : list NetEvent) (url : option string)
    (portArg : option PortValue) (redirectCount : option nat) (w : World) :
  Legacy.nest net url portArg redirectCount w =
  if (10 <? or_zero redirectCount)%nat then (w, Throws RedirectedTooManyTimes)
  else match net with
       | [] => (request url portArg w, Pending)
       | NetError message :: _ => (request url portArg w, Rejected (Reason message))
       | NetResponse res :: later =>
           match Legacy.on_response res (fresh (request url portArg w)) with
           | (c, inl e) => (world c, Exited e)
           | (c, inr _) =>
               match resolved c with
               | None => (world c, Pending)
               | Some data =>
                   if negb (truthy data)
                   then adopt (Legacy.nest later None None
                                 (Some (or_zero redirectCount + 1)) (world c))
                   else (world c, Fulfilled data)
               end
           end
       end.
Proof. destruct net; reflexivity. Qed.

(** Without the 404 and 429 branches the two handlers are the same. *)
Lemma legacy_on_response_common (res : Response) (c : Call) :
  statusCode res <> 404 -> statusCode res <> 429 ->
  Legacy.on_response res c = on_response res c.
Proof.
  intros S1 S2. unfold Legacy.on_response, on_response.
  apply Nat.eqb_neq in S1, S2. rewrite S1, S2.
  unfold bind, ret.
  destruct ((if (statusCode res =? 307)%nat then on_redirect res
             else fun s => (s, inr tt)) c) as [c' [e|u]]; reflexivity.
Qed.

Lemma legacy_on_response_other (res : Response) (c : Call) :
  statusCode res <> 307 -> Legacy.on_response res c = on_end res c.
Proof.
  intros S. unfold Legacy.on_response. apply Nat.eqb_neq in S. rewrite S.
  reflexivity.
Qed.

(** X10. The two variants' loops agree on every run that meets no 404 and
    no 429: same outcome, same cache, same calls in the same order. *)
Theorem legacy_nest_agrees (net : list NetEvent) :
  forall (url : option string) (portArg : option PortValue)
         (redirectCount : option nat) (w : World),
    forallb common net = true ->
    Legacy.nest net url portArg redirectCount w
      = nest net url portArg redirectCount w.
Proof.
  induction net as [|ev later IH]; intros url portArg redirectCount w C;
    rewrite legacy_nest_eq, nest_eq; [reflexivity|].
  simpl in C. apply andb_true_iff in C as [Ce Cl].
  destruct (10 <? or_zero redirectCount)%nat; [reflexivity|].
  destruct ev as [res|message]; [|reflexivity].
  simpl in Ce. apply andb_true_iff in Ce as [S1 S2].
  apply negb_true_iff, Nat.eqb_neq in S1. apply negb_true_iff, Nat.eqb_neq in S2.
  rewrite (legacy_on_response_common res _ S1 S2).
  destruct (on_response res (fresh (request url portArg w))) as [c [e|u]];
    [reflexivity|].
  destruct (resolved c) as [data|]; [|reflexivity].
  destruct (negb (truthy data)); [|reflexivity].
  now rewrite IH.
Qed.

(** X11. In [src/index.js] a 404 or a 429 is handled like any other
    status.  The cache stays as it is; after an empty body the retry starts
    from that same cache; and a body that parses to a truthy value is
    returned as data, where the full variant sends a retry signal. *)
Theorem legacy_not_found_is_not_special :
  forall (res : Response),
    statusCode res = 404 \/ statusCode res = 429 ->
    (forall c : Call,
        dynamicNestConfig (world (fst (Legacy.on_response res c)))
          = dynamicNestConfig (world c)) /\
    (forall (later : list NetEvent) (url : option string) (portArg : option PortValue)
            (redirectCount : option nat) (w : World),
        or_zero redirectCount <= 10 -> body res = "" ->
        Legacy.nest (NetResponse res :: later) url portArg redirectCount w =
        adopt (Legacy.nest later None None (Some (or_zero redirectCount + 1))
                           (request url portArg w))) /\
    (forall (data : JsValue) (later : list NetEvent) (url : option string)
            (portArg : option PortValue) (redirectCount : option nat) (w : World),
        or_zero redirectCount <= 10 ->
        body res <> "" -> JSON_parse (body res) = Some data -> truthy data = true ->
        snd (Legacy.nest (NetResponse res :: later) url portArg redirectCount w)
          = Fulfilled data /\
        retry_signal res = true).
Proof.
  intros res S.
  assert (S7 : statusCode res <> 307) by (destruct S as [S|S]; rewrite S; discriminate).
  split; [|split].
  - intros c. rewrite legacy_on_response_other by exact S7.
    destruct c as [[[h p] t] r]. run. cases; reflexivity.
  - intros later url portArg redirectCount w Hn B.
    rewrite legacy_nest_eq, (below_ceiling _ Hn).
    rewrite legacy_on_response_other by exact S7.
    unfold body in B. unfold on_end. rewrite B.
    destruct (request url portArg w) as [cfg t]. reflexivity.
  - intros data later url portArg redirectCount w Hn B P T.
    apply body_not_empty in B. unfold body in B, P. split.
    + rewrite legacy_nest_eq, (below_ceiling _ Hn).
      rewrite legacy_on_response_other by exact S7.
      unfold fresh. run. rewrite B. run. rewrite P. run. rewrite T. reflexivity.
    + unfold retry_signal, answer.
      destruct S as [S|S];
        [rewrite on_response_404 by exact S | rewrite on_response_429 by exact S];
        unfold fresh, initial; run; rewrite B; run; rewrite P; reflexivity.
Qed.

(** *** The cycle's extraction *)

Lemma truthy_not_nullish (v : JsValue) : truthy v = true -> nullish v = false.
Proof. now destruct v. Qed.


(** The callback, on data a property can be read from. *)
Lemma on_data_eq (build : JsValue -> JsValue -> M World (list Point))
    (data : JsValue) (w : World) :
  nullish data = false ->
  on_data build data w =
  if truthy (member data "devices")
     && truthy (member (member data "devices") "thermostats")
  then if (length (own_keys (member (member data "devices") "thermostats")) =? 0)%nat
       then (emit (Log info MsgNoThermostats) w, inr tt)
       else for_each (own_keys (member (member data "devices") "thermostats"))
                     (write_device build data)
                     (emit (Log info
                              (MsgFound (length (own_keys
                                 (member (member data "devices") "thermostats"))))) w)
  else (emit (Log error MsgUnexpected) w, inr tt).
Proof.
  intros D. unfold on_data. rewrite bind_get, D.
  destruct (truthy (member data "devices")) eqn:T1; cbn [andb].
  - rewrite bind_get, (truthy_not_nullish _ T1).
    destruct (truthy (member (member data "devices") "thermostats")) eqn:T2.
    + rewrite bind_get, D, bind_get, (truthy_not_nullish _ T1).
      unfold bind at 1, Object_keys. rewrite (truthy_not_nullish _ T2).
      cbv beta iota delta [ret].
      destruct (length (own_keys (member (member data "devices") "thermostats")) =? 0)%nat;
        reflexivity.
    + reflexivity.
  - unfold bind, ret. rewrite T1. reflexivity.
Qed.

(** X12. A payload without thermostats is not an error.  When [devices]
    or [devices.thermostats] is missing or falsy the callback logs
    'Unexpected response' as an error; when the mapping has no keys it logs
    'No thermostats found'; in both cases nothing is written and nothing
    is thrown. *)
Theorem on_data_without_thermostats :
  forall (build : JsValue -> JsValue -> M World (list Point))
         (data : JsValue) (w : World),
    nullish data = false ->
    (truthy (member data "devices") = false \/
     truthy (member (member data "devices") "thermostats") = false ->
     on_data build data w = (emit (Log error MsgUnexpected) w, inr tt)) /\
    (truthy (member data "devices") = true ->
     truthy (member (member data "devices") "thermostats") = true ->
     own_keys (member (member data "devices") "thermostats") = [] ->
     on_data build data w = (emit (Log info MsgNoThermostats) w, inr tt)).
Proof.
  intros build data w D. rewrite (on_data_eq build data w D). split.
  - intros [T|T]; rewrite T; [reflexivity|now rewrite andb_false_r].
  - intros T1 T2 K. now rewrite T1, T2, K.
Qed.

(** The array literal of a device that has a location does not depend on
    the world, and has three points. *)
Lemma points_frame (device where_ : JsValue) :
  nullish device = false -> nullish where_ = false ->
  exists array, length array = 3 /\
                forall w, points device where_ w = (w, inr array).
Proof.
  intros D W.
  unfold points, temperature_reading, humidity_reading, device_state_reading,
    get, bind, ret.
  rewrite D, W. eexists. split; [|intros w; reflexivity]. reflexivity.
Qed.






Lemma untouched_refl (w : World) : untouched w w.
Proof. now repeat split. Qed.

Lemma untouched_trans (w1 w2 w3 : World) :
  untouched w1 w2 -> untouched w2 w3 -> untouched w1 w3.
Proof. unfold untouched. intros (A & B & C) (D & E & F). repeat split; congruence. Qed.

Lemma untouched_log (level : Level) (msg : Message) (w : World) :
  untouched w (emit (Log level msg) w).
Proof.
  unfold untouched, emit. simpl. rewrite requests_app, parses_app. simpl.
  now rewrite !app_nil_r.
Qed.

Lemma untouched_write (array : list Point) (w : World) :
  untouched w (emit (WritePoints array) w).
Proof.
  unfold untouched, emit. simpl. rewrite requests_app, parses_app. simpl.
  now rewrite !app_nil_r.
Qed.

(** Building the array literal leaves the world alone. *)
Lemma points_world (device where_ : JsValue) (w : World) :
  fst (points device where_ w) = w.
Proof.
  destruct (nullish where_) eqn:W.
  - now rewrite (proj1 (points_without_where device where_ w W)).
  - destruct (nullish device) eqn:D.
    + unfold points, temperature_reading, bind, get. now rewrite D.
    + destruct (points_frame device where_ D W) as (array & _ & P). now rewrite P.
Qed.

Lemma write_device_untouched (data : JsValue) (id : string) (w : World) :
  untouched w (fst (write_device points data id w)).
Proof.
  rewrite write_device_eq.
  match goal with |- context [if ?b then _ else _] => destruct b end;
    [apply untouched_refl|].
  unfold bind.
  pose proof (points_world (thermostat data id) (where_of data (thermostat data id))
                (emit (Log info (MsgWriting (member (thermostat data id) "name"))) w))
    as P.
  destruct (points (thermostat data id) (where_of data (thermostat data id))
              (emit (Log info (MsgWriting (member (thermostat data id) "name"))) w))
    as [w1 [e|array]]; simpl in P; subst w1; cbn [fst].
  - apply untouched_log.
  - unfold writePoints, update. cbn [fst].
    eapply untouched_trans; [apply untouched_log|apply untouched_write].
Qed.

Lemma for_each_untouched (data : JsValue) (ids : list string) :
  forall w : World, untouched w (fst (for_each ids (write_device points data) w)).
Proof.
  induction ids as [|id ids IH]; intros w; [apply untouched_refl|].
  cbn [for_each]. unfold bind.
  pose proof (write_device_untouched data id w) as U.
  destruct (write_device points data id w) as [w1 [e|u]]; cbn [fst] in *;
    [exact U|].
  eapply untouched_trans; [exact U|apply IH].
Qed.


(** X14. The extraction keeps to itself: whatever the data, the callback
    given to [then] leaves [dynamicNestConfig] as it is, sends no request
    and parses nothing; and so does the [catch] that logs its error. *)
Theorem on_data_leaves_the_cache :
  forall (data : JsValue) (w : World),
    untouched w (fst (on_data points data w)) /\
    untouched w (fst (then_catch points (Fulfilled data) w)).
Proof.
  intros data w.
  assert (U : untouched w (fst (on_data points data w))).
  { destruct (nullish data) eqn:D.
    - unfold on_data. rewrite bind_get, D. apply untouched_refl.
    - rewrite (on_data_eq points data w D).
      destruct (truthy (member data "devices")
                && truthy (member (member data "devices") "thermostats"));
        [|apply untouched_log].
      destruct (length (own_keys (member (member data "devices") "thermostats")) =? 0)%nat;
        [apply untouched_log|].
      eapply untouched_trans; [apply untouched_log|apply for_each_untouched]. }
  split; [exact U|].
  unfold then_catch. destruct (on_data points data w) as [w' [e|u]]; cbn [fst] in *;
    [|exact U].
  eapply untouched_trans; [exact U|apply untouched_log].
Qed.

(** *** The points and the schema *)

Lemma points_need_device (device where_ : JsValue) (w w' : World) (array : list Point) :
  points device where_ w = (w', inr array) \/
  Legacy.points device where_ w = (w', inr array) ->
  nullish device = false /\ nullish where_ = false.
Proof.
  intros H. destruct (nullish where_) eqn:W.
  - destruct (points_without_where device where_ w W) as [P Q].
    rewrite P, Q in H. now destruct H.
  - split; [|reflexivity]. destruct (nullish device) eqn:D; [|reflexivity].
    unfold points, Legacy.points, temperature_reading, Legacy.temperature_reading,
      bind, get in H.
    rewrite D in H. now destruct H.
Qed.

(** X16. The points fit the schema.  Every point either variant hands to
    [writePoints] names a measurement that its own schema declares, with
    exactly the declared fields and exactly the declared tags. *)
Theorem points_are_declared :
  forall (device where_ : JsValue) (w w' : World) (array : list Point),
    (points device where_ w = (w', inr array) ->
     forallb (declared schema) array = true) /\
    (Legacy.points device where_ w = (w', inr array) ->
     forallb (declared legacy_schema) array = true).
Proof.
  intros device where_ w w' array. split; intros H.
  - destruct (points_need_device device where_ w w' array (or_introl H)) as [D W].
    unfold points, temperature_reading, humidity_reading, device_state_reading,
      get, bind, ret in H.
    rewrite D, W in H. inversion H; subst. reflexivity.
  - destruct (points_need_device device where_ w w' array (or_intror H)) as [D W].
    unfold Legacy.points, Legacy.temperature_reading, humidity_reading,
      get, bind, ret in H.
    rewrite D, W in H. inversion H; subst. reflexivity.
Qed.

Lemma flag_is_indicator (b : bool) :
  is_one (Some (flag b)) || is_zero (Some (flag b)) = true.
Proof. now destruct b. Qed.

Lemma flag_is_one (b : bool) : is_one (Some (flag b)) = b.
Proof. now destruct b. Qed.

(** X17. The one-hot columns for any device.  Whatever the device record
    holds, the three flags, the five mode columns and the three state
    columns are each 0 or 1.  When [hvac_mode] is a string, the mode
    columns hold a single 1 if it is one of the five modes and no 1
    otherwise, and likewise for [hvac_state]; when the property is missing
    its columns are all 0. *)
Theorem state_columns_for_any_device :
  forall (device where_ : JsValue) (w w' : World) (p : Point),
    device_state_reading device where_ w = (w', inr p) ->
    indicators (flag_columns ++ mode_columns ++ state_columns) p = true /\
    (forall mode : string,
        member device "hvac_mode" = JStr mode ->
        ones mode_columns p = if existsb (String.eqb mode) modes then 1 else 0) /\
    (forall state : string,
        member device "hvac_state" = JStr state ->
        ones state_columns p = if existsb (String.eqb state) states then 1 else 0) /\
    (nullish (member device "hvac_mode") = true -> ones mode_columns p = 0) /\
    (nullish (member device "hvac_state") = true -> ones state_columns p = 0).
Proof.
  intros device where_ w w' p H.
  assert (D : nullish device = false /\ nullish where_ = false).
  { destruct (nullish device) eqn:D;
      [unfold device_state_reading, bind, get in H; rewrite D in H; discriminate|].
    destruct (nullish where_) eqn:W; [|now split].
    unfold device_state_reading, bind, get in H. rewrite D, W in H. discriminate. }
  destruct D as [D W].
  rewrite (device_state_reading_ok device where_ w D W) in H.
  inversion H; subst. clear H.
  unfold ones, indicators, flag_columns, mode_columns, state_columns, modes, states.
  cbn -[flag is_one is_zero loose_eq_string truthy member].
  repeat split.
  - now rewrite !flag_is_indicator.
  - intros mode M. rewrite !flag_is_one, M. cbn [loose_eq_string].
    destruct (String.eqb mode "off") eqn:E1;
      [apply String.eqb_eq in E1; subst; reflexivity|].
    destruct (String.eqb mode "heat") eqn:E2;
      [apply String.eqb_eq in E2; subst; reflexivity|].
    destruct (String.eqb mode "cool") eqn:E3;
      [apply String.eqb_eq in E3; subst; reflexivity|].
    destruct (String.eqb mode "heat-cool") eqn:E4;
      [apply String.eqb_eq in E4; subst; reflexivity|].
    destruct (String.eqb mode "eco") eqn:E5; reflexivity.
  - intros state M. rewrite !flag_is_one, M. cbn [loose_eq_string].
    destruct (String.eqb state "off") eqn:E1;
      [apply String.eqb_eq in E1; subst; reflexivity|].
    destruct (String.eqb state "cooling") eqn:E2;
      [apply String.eqb_eq in E2; subst; reflexivity|].
    destruct (String.eqb state "heating") eqn:E3; reflexivity.
  - intros M. rewrite !flag_is_one.
    destruct (member device "hvac_mode"); try discriminate; reflexivity.
  - intros M. rewrite !flag_is_one.
    destruct (member device "hvac_state"); try discriminate; reflexivity.
Qed.

End Properties.


(* ===================================================================== *)
(** ** The properties on the sample data *)
(* ===================================================================== *)

#[local] Existing Instance Sample.runtime.
#[local] Existing Instance Sample.https.

Lemma retry_to_refused_port_is_rejected_witness :
  snd (checked_nest [NetResponse Sample.redirect_with_path; NetResponse Sample.ok]
                    None None None initial) = Rejected RangeError /\
  requests (trace (fst (checked_nest [NetResponse Sample.redirect_with_path;
                                      NetResponse Sample.ok]
                                     None None None initial)))
    = [(DEFAULT_NEST_URL, DEFAULT_NEST_PORT)].
Proof.
  apply (@retry_to_refused_port_is_rejected Sample.runtime Sample.https
           Sample.redirect_with_path [NetResponse Sample.ok] None None None initial);
    [simpl; lia|reflexivity|reflexivity|reflexivity].
Defined.

(** The port the second attempt would have asked for. *)
Lemma redirect_with_path_port_is_refused :
  request_port None
    (dynamicNestConfig
       (world (fst (on_response Sample.redirect_with_path
                      (fresh (request None None initial))))))
    = PortString "444some/path" /\
  legal_port (PortString "444some/path") = false /\
  legal_port (PortString "444") = true /\
  legal_port DEFAULT_NEST_PORT = true.
Proof. repeat split; reflexivity. Qed.

Lemma not_found_reverts_to_default_witness :
  dynamicNestConfig
    (world (fst (@on_response Sample.runtime Sample.not_found
                   (fresh Sample.redirected))))
    = {| host := None; port := None |} /\
  exists more,
    requests (trace (fst (@nest Sample.runtime
                            [NetResponse Sample.not_found; NetResponse Sample.ok]
                            None None None Sample.redirected))) =
    requests (trace Sample.redirected) ++
      ("alt-host", PortString "444") :: (DEFAULT_NEST_URL, DEFAULT_NEST_PORT) :: more.
Proof.
  split.
  - apply (proj1 (@not_found_reverts_to_default Sample.runtime Sample.not_found
                    (eq_refl 404))).
  - apply (proj2 (@not_found_reverts_to_default Sample.runtime Sample.not_found
                    (eq_refl 404))
             [NetResponse Sample.ok] None None None Sample.redirected);
      [reflexivity|simpl; lia].
Defined.

Lemma too_many_requests_keeps_cache_witness :
  dynamicNestConfig
    (world (fst (@on_response Sample.runtime Sample.too_many_requests
                   (fresh Sample.redirected))))
    = {| host := Some "alt-host"; port := Some "444" |} /\
  resolved (fst (@on_response Sample.runtime Sample.too_many_requests
                   (fresh Sample.redirected))) = Some JNull.
Proof.
  destruct (@too_many_requests_keeps_cache Sample.runtime Sample.too_many_requests
              (fresh Sample.redirected) (eq_refl 429)) as [A B].
  split; [exact A|exact (B eq_refl)].
Defined.

Lemma redirect_can_set_the_host_alone_witness :
  on_response Sample.redirect_without_port (fresh initial)
    = ({| world := {| dynamicNestConfig :=
                        {| host := Some "alt-host/"; port := None |};
                      trace := [] |};
          resolved := None |}, inl TypeError) /\
  on_response Sample.redirect_with_empty_port (fresh initial)
    = ({| world := {| dynamicNestConfig :=
                        {| host := Some "alt-host"; port := Some "" |};
                      trace := [Log info (MsgRedirect (Some "alt-host") (Some ""))] |};
          resolved := Some JNull |}, inr tt) /\
  request_port None {| host := Some "alt-host"; port := Some "" |}
    = DEFAULT_NEST_PORT /\
  request_url None {| host := Some "alt-host"; port := Some "" |} = "alt-host".
Proof.
  split.
  - apply (proj1 (@redirect_can_set_the_host_alone Sample.runtime
                    Sample.redirect_without_port initial (eq_refl 307))
             "https://alt-host/"); reflexivity.
  - apply (proj2 (@redirect_can_set_the_host_alone Sample.runtime
                    Sample.redirect_with_empty_port initial (eq_refl 307))
             "alt-host"); reflexivity.
Defined.

(** After a redirect with an empty port the next request goes to the
    cached host on the default port. *)
Lemma redirect_with_empty_port_asks_the_default_port :
  requests (trace (fst (@nest Sample.runtime
                          [NetResponse Sample.redirect_with_empty_port;
                           NetResponse Sample.ok]
                          None None None initial)))
    = [(DEFAULT_NEST_URL, DEFAULT_NEST_PORT); ("alt-host", DEFAULT_NEST_PORT)].
Proof. reflexivity. Qed.

Lemma empty_body_is_a_retry_signal_witness :
  @on_response Sample.runtime Sample.empty (fresh Sample.redirected)
    = ({| world := Sample.redirected; resolved := Some (JStr "") |}, inr tt) /\
  @nest Sample.runtime [NetResponse Sample.empty; NetResponse Sample.ok]
        None None None Sample.redirected =
  adopt (@nest Sample.runtime [NetResponse Sample.ok] None None (Some 1)
               (request None None Sample.redirected)) /\
  (exists more,
      requests (trace (fst (@nest Sample.runtime
                              [NetResponse Sample.empty; NetResponse Sample.ok]
                              None None None Sample.redirected))) =
      requests (trace Sample.redirected) ++
        ("alt-host", PortString "444") :: ("alt-host", PortString "444") :: more) /\
  snd (@nest Sample.runtime [NetResponse Sample.empty; NetResponse Sample.ok]
             None None None Sample.redirected)
    <> Fulfilled (JStr "").
Proof.
  destruct (@empty_body_is_a_retry_signal Sample.runtime Sample.empty)
    as (A & B & C & D); try discriminate; try reflexivity.
  split; [apply A|]. split; [|split; [|apply D]].
  - apply (B [NetResponse Sample.ok] None None None Sample.redirected).
    simpl; lia.
  - apply (C [NetResponse Sample.ok] None None None Sample.redirected).
    simpl; lia.
Defined.

Lemma not_found_and_too_many_requests_resolve_null_witness :
  resolved (fst (@on_response Sample.runtime Sample.not_found_with_body
                   (fresh initial))) = Some JNull /\
  (forall data, @answer Sample.runtime Sample.not_found_with_body = inr data ->
                data = JNull) /\
  @retry_signal Sample.runtime Sample.not_found_with_body = true /\
  parses (trace (world (fst (@on_response Sample.runtime Sample.not_found_with_body
                               (fresh initial))))) = ["{}"].
Proof.
  destruct (@not_found_and_too_many_requests_resolve_null Sample.runtime
              Sample.not_found_with_body (fresh initial)
              (or_introl (eq_refl 404)) eq_refl) as (A & B & C & D).
  split; [exact A|]. split; [exact B|]. split.
  - apply C. right. discriminate.
  - apply D. discriminate.
Defined.

(** C10 as stated fails on this 404 response: its body is handed to
    [JSON.parse]. *)
Lemma not_found_body_is_parsed :
  statusCode Sample.not_found_with_body = 404 /\
  trace (world (fst (@on_response Sample.runtime Sample.not_found_with_body
                       (fresh initial))))
    = [Log info MsgNotFound; JsonParse "{}"].
Proof. split; reflexivity. Qed.


(** A name every object inherits is an own read only where the object has
    a property of that name itself. *)
Lemma inherited_name_is_no_own_read :
  own_read (JObj [("w1", Sample.hall)]) "toString" = false /\
  own_read (JObj [("w1", Sample.hall)]) "gone" = true /\
  own_read (JObj [("toString", Sample.hall)]) "toString" = true.
Proof. repeat split; reflexivity. Qed.


Lemma device_state_one_hot_witness :
  (exists temperature humidity p,
      @points Sample.runtime (Sample.device "t1" "s1" "w1") Sample.hall initial
        = (initial, inr [temperature; humidity; p]) /\
      measurement p = "device.state.reading" /\
      assoc "mode_heat" (fields p) = Some (JNum 1) /\
      assoc "mode_off" (fields p) = Some (JNum 0) /\
      assoc "mode_cool" (fields p) = Some (JNum 0) /\
      assoc "mode_heat_cool" (fields p) = Some (JNum 0) /\
      assoc "mode_eco" (fields p) = Some (JNum 0) /\
      assoc "state_heating" (fields p) = Some (JNum 1) /\
      assoc "state_off" (fields p) = Some (JNum 0) /\
      assoc "state_cooling" (fields p) = Some (JNum 0) /\
      assoc "fan" (fields p) = Some (JNum 1) /\
      assoc "online" (fields p) = Some (JNum 1)) /\
  (exists temperature humidity p,
      @points Sample.runtime (Sample.device "t1" "s1" "w1") Sample.hall initial
        = (initial, inr [temperature; humidity; p]) /\
      measurement p = "device.state.reading" /\
      ones mode_columns p = 1 /\
      ones state_columns p = 1 /\
      indicators (mode_columns ++ state_columns) p = true).
Proof.
  destruct (@device_state_one_hot Sample.runtime (Sample.device "t1" "s1" "w1")
              Sample.hall initial eq_refl) as [A B].
  split.
  - apply A; reflexivity.
  - apply (B "heat" "heating"); try reflexivity; simpl; tauto.
Defined.

Lemma temperature_reading_fields_witness :
  (exists humidity state,
      writes (trace (fst (write_device (@points Sample.runtime) Sample.payload "t1"
                                       initial))) =
      writes (trace initial) ++
        [[ {| measurement := "sensor.temperature.reading";
              tags := [("device_id", JStr "t1"); ("room", JStr "Hall")];
              fields := [("ambient", JNum 71); ("target_high", JNum 75);
                         ("target_low", JNum 65); ("target", JNum 70)] |};
           humidity; state ]]) /\
  (exists humidity,
      writes (trace (fst (write_device Legacy.points Sample.payload
                                       "t1" initial))) =
      writes (trace initial) ++
        [[ {| measurement := "sensor.temperature.reading";
              tags := [("device_id", JStr "t1"); ("room", JStr "Hall")];
              fields := [("ambient", JNum 71); ("target_high", JNum 75);
                         ("target_low", JNum 65)] |};
           humidity ]]).
Proof.
  split.
  - apply (proj1 (@temperature_reading_fields Sample.runtime Sample.payload "t1"
                    initial
                    (fst (write_device (@points Sample.runtime) Sample.payload "t1"
                                       initial)))).
    reflexivity.
  - apply (proj2 (@temperature_reading_fields Sample.runtime Sample.payload "t1"
                    initial
                    (fst (write_device Legacy.points Sample.payload
                                       "t1" initial)))).
    reflexivity.
Defined.

(** C9 as stated fails on [src/index.js]: the temperature point it writes
    for the sample thermostat has three fields, and [target] is not one of
    them. *)
Lemma legacy_temperature_reading_has_no_target :
  writes (trace (fst (on_data Legacy.points Sample.payload initial))) =
  [[ {| measurement := "sensor.temperature.reading";
        tags := [("device_id", JStr "t1"); ("room", JStr "Hall")];
        fields := [("ambient", JNum 71); ("target_high", JNum 75);
                   ("target_low", JNum 65)] |};
     {| measurement := "sensor.humidity.reading";
        tags := [("device_id", JStr "t1"); ("room", JStr "Hall")];
        fields := [("humidity", JNum 40)] |} ]].
Proof. reflexivity. Qed.

(* ===================================================================== *)
(** ** The further properties on the sample data *)
(* ===================================================================== *)

Lemma transport_error_is_not_retried_witness :
  snd (nest (map NetResponse Sample.ten_retries ++ [NetError "ECONNRESET"])
            None None None initial) = Rejected (Reason "ECONNRESET") /\
  length (requests (trace (fst (nest (map NetResponse Sample.ten_retries
                                        ++ [NetError "ECONNRESET"])
                                     None None None initial))))
    = length (requests (trace initial)) + length Sample.ten_retries + 1.
Proof.
  apply (@transport_error_is_not_retried Sample.runtime Sample.ten_retries
           "ECONNRESET" [] initial (eq_refl true)).
  simpl; lia.
Defined.

Lemma other_statuses_leave_cache_witness :
  dynamicNestConfig
    (fst (nest [NetResponse Sample.too_many_requests; NetResponse Sample.empty;
                NetResponse Sample.server_error]
               None None None Sample.redirected))
    = dynamicNestConfig Sample.redirected.
Proof.
  apply (@other_statuses_leave_cache Sample.runtime
           [NetResponse Sample.too_many_requests; NetResponse Sample.empty;
            NetResponse Sample.server_error]
           None None None Sample.redirected).
  reflexivity.
Defined.

Lemma fulfilled_data_was_parsed_witness :
  exists res,
    In (NetResponse res) [NetResponse Sample.not_found; NetResponse Sample.ok] /\
    statusCode res <> 307 /\ statusCode res <> 404 /\ statusCode res <> 429 /\
    body res <> "" /\ JSON_parse (body res) = Some Sample.payload /\
    truthy Sample.payload = true.
Proof.
  apply (@fulfilled_data_was_parsed Sample.runtime
           [NetResponse Sample.not_found; NetResponse Sample.ok]
           None None None initial Sample.payload).
  reflexivity.
Defined.

Lemma any_other_status_delivers_witness :
  nest [NetResponse Sample.server_error] None None None initial =
  (emit (JsonParse (body Sample.server_error)) (request None None initial),
   Fulfilled Sample.payload).
Proof.
  apply (@any_other_status_delivers Sample.runtime Sample.server_error Sample.payload
           [] None None None initial);
    try discriminate; try reflexivity.
  simpl; lia.
Defined.


Lemma unusable_redirect_exits_witness :
  on_response Sample.redirect_without_header (fresh Sample.redirected)
    = (fresh Sample.redirected, inl TypeError) /\
  on_response Sample.redirect_without_port (fresh Sample.redirected)
    = ({| world := {| dynamicNestConfig :=
                        {| host := Some "alt-host/"; port := Some "444" |};
                      trace := [] |};
          resolved := None |}, inl TypeError).
Proof.
  split.
  - apply (proj1 (@unusable_redirect_exits Sample.runtime
                    Sample.redirect_without_header (fresh Sample.redirected)
                    (eq_refl 307))).
    reflexivity.
  - apply (proj2 (@unusable_redirect_exits Sample.runtime
                    Sample.redirect_without_port (fresh Sample.redirected)
                    (eq_refl 307))
             "https://alt-host/"); reflexivity.
Defined.

Lemma redirect_target_is_cached_witness :
  dynamicNestConfig (world (fst (on_response Sample.redirect_with_path (fresh initial))))
    = {| host := Some "alt-host"; port := Some "444some/path" |} /\
  dynamicNestConfig (world (fst (on_response Sample.redirect (fresh initial))))
    = {| host := Some "alt-host"; port := Some "444" |}.
Proof.
  split.
  - apply (@redirect_target_is_cached Sample.runtime Sample.redirect_with_path
             "alt-host" "444" "some/path" (fresh initial)); reflexivity.
  - apply (@redirect_target_is_cached Sample.runtime Sample.redirect
             "alt-host" "444" "" (fresh initial)); reflexivity.
Defined.


Lemma legacy_nest_agrees_witness :
  Legacy.nest [NetResponse Sample.redirect; NetResponse Sample.empty;
               NetError "ETIMEDOUT"] None None None initial
  = nest [NetResponse Sample.redirect; NetResponse Sample.empty;
          NetError "ETIMEDOUT"] None None None initial.
Proof.
  apply (@legacy_nest_agrees Sample.runtime
           [NetResponse Sample.redirect; NetResponse Sample.empty;
            NetError "ETIMEDOUT"] None None None initial).
  reflexivity.
Defined.

Lemma legacy_not_found_is_not_special_witness :
  dynamicNestConfig
    (world (fst (Legacy.on_response Sample.not_found (fresh Sample.redirected))))
    = dynamicNestConfig (world (fresh Sample.redirected)) /\
  Legacy.nest [NetResponse Sample.not_found; NetResponse Sample.ok]
              None None None Sample.redirected =
  adopt (Legacy.nest [NetResponse Sample.ok] None None (Some 1)
                     (request None None Sample.redirected)) /\
  (snd (Legacy.nest [NetResponse Sample.not_found_with_document]
                    None None None Sample.redirected) = Fulfilled Sample.payload /\
   retry_signal Sample.not_found_with_document = true).
Proof.
  split; [|split].
  - apply (proj1 (@legacy_not_found_is_not_special Sample.runtime Sample.not_found
                    (or_introl (eq_refl 404)))).
  - apply (proj1 (proj2 (@legacy_not_found_is_not_special Sample.runtime
                           Sample.not_found (or_introl (eq_refl 404))))
             [NetResponse Sample.ok] None None None Sample.redirected);
      [simpl; lia|reflexivity].
  - apply (proj2 (proj2 (@legacy_not_found_is_not_special Sample.runtime
                           Sample.not_found_with_document (or_introl (eq_refl 404))))
             Sample.payload [] None None None Sample.redirected);
      try discriminate; try reflexivity.
    simpl; lia.
Defined.

Lemma on_data_without_thermostats_witness :
  on_data points Sample.payload_without_devices initial
    = (emit (Log error MsgUnexpected) initial, inr tt) /\
  on_data points Sample.payload_without_thermostats initial
    = (emit (Log info MsgNoThermostats) initial, inr tt).
Proof.
  split.
  - apply (proj1 (@on_data_without_thermostats Sample.runtime points
                    Sample.payload_without_devices initial eq_refl)).
    left. reflexivity.
  - apply (proj2 (@on_data_without_thermostats Sample.runtime points
                    Sample.payload_without_thermostats initial eq_refl));
      reflexivity.
Defined.


Lemma points_are_declared_witness :
  forallb (declared schema) (array_for Sample.payload "t1") = true /\
  forallb (declared legacy_schema)
          [ {| measurement := "sensor.temperature.reading";
               tags := [("device_id", JStr "t1"); ("room", JStr "Hall")];
               fields := [("ambient", JNum 71); ("target_high", JNum 75);
                          ("target_low", JNum 65)] |};
            {| measurement := "sensor.humidity.reading";
               tags := [("device_id", JStr "t1"); ("room", JStr "Hall")];
               fields := [("humidity", JNum 40)] |} ] = true.
Proof.
  split.
  - apply (proj1 (@points_are_declared Sample.runtime (Sample.device "t1" "s1" "w1")
                    Sample.hall initial initial (array_for Sample.payload "t1"))).
    reflexivity.
  - apply (proj2 (@points_are_declared Sample.runtime (Sample.device "t1" "s1" "w1")
                    Sample.hall initial initial _)).
    reflexivity.
Defined.

Lemma state_columns_for_any_device_witness :
  exists p,
    device_state_reading (JObj [("hvac_mode", JStr "auto")]) Sample.hall initial
      = (initial, inr p) /\
    indicators (flag_columns ++ mode_columns ++ state_columns) p = true /\
    ones mode_columns p = 0 /\
    ones state_columns p = 0.
Proof.
  eexists. split; [reflexivity|].
  destruct (@state_columns_for_any_device Sample.runtime
              (JObj [("hvac_mode", JStr "auto")]) Sample.hall initial initial _ eq_refl)
    as (A & B & _ & _ & E).
  split; [exact A|]. split.
  - apply (B "auto"). reflexivity.
  - apply E. reflexivity.
Defined.

Lemma checked_nest_retry_ceiling_witness :
  snd (checked_nest (map NetResponse Sample.ten_retries ++ [NetResponse Sample.ok])
                    None None None initial) = Fulfilled Sample.payload /\
  (snd (checked_nest (map NetResponse (Sample.empty :: Sample.ten_retries)
                        ++ [NetResponse Sample.ok])
                     None None None initial) = Rejected RedirectedTooManyTimes /\
   length (requests (trace (fst (checked_nest
                                   (map NetResponse
                                      (Sample.empty :: Sample.ten_retries)
                                      ++ [NetResponse Sample.ok])
                                   None None None initial))))
     = length (requests (trace initial)) + 11).
Proof.
  split.
  - apply (proj1 (@checked_nest_retry_ceiling Sample.runtime Sample.https
                    Sample.ten_retries [] initial (eq_refl true))
             Sample.ok Sample.payload);
      [simpl; lia|reflexivity|reflexivity|reflexivity].
  - apply (proj2 (@checked_nest_retry_ceiling Sample.runtime Sample.https
                    (Sample.empty :: Sample.ten_retries)
                    [NetResponse Sample.ok] initial (eq_refl true)));
      [simpl; lia|reflexivity].
Defined.
